(** * YOLOv8 detection service: normalization layer, HTTP boundary, UI client

    A shallow embedding of [detector.py], [app/main.py] and [ui/app.py].

    - Python [float] is IEEE-754 binary64: Rocq's primitive [float].  The
      arrays handed over by the model hold float32 entries; [ndarray.tolist()]
      and [float(...)] widen them without changing the value, so an entry is
      modelled by the binary64 number it widens to.
    - Python [int] is [Z]; [str] is [string]; a [Dict[int, str]] is a
      [gmap Z string]; the dictionaries built with fixed keys are records,
      with [*_to_json] giving the dictionary itself (keys in source order).
    - A raised exception is the [Raise] case of [result]; code that also has
      effects runs in a state-and-exception monad over an explicit world. *)

From Stdlib Require Import Floats ZArith.
From stdpp Require Import gmap strings list pretty.

Local Open Scope Z_scope.

(** ** Python runtime: exceptions and results *)

Inductive exn : Set :=
  | ValueError
  | OverflowError
  | IndexError
  | KeyError (key : string)
  | TypeError
  | AttributeError
  | UnidentifiedImageError
  | OSError
  | ConnectionError
  | JSONDecodeError
  | UnicodeEncodeError
  | HTTPError (status : Z).

Inductive result (A : Type) : Type :=
  | Ok (a : A)
  | Raise (e : exn).
Arguments Ok {A} a.
Arguments Raise {A} e.

Definition is_ok {A} (r : result A) : bool :=
  match r with Ok _ => true | Raise _ => false end.

#[export] Instance result_ret : MRet result := fun A a => Ok a.
#[export] Instance result_bind : MBind result := fun A B f r =>
  match r with
  | Ok a => f a
  | Raise e => Raise e
  end.

(** State and exceptions: a raised exception keeps the effects done so far. *)
Definition M (W A : Type) : Type := W -> result A * W.

#[export] Instance M_ret {W} : MRet (M W) := fun A a w => (Ok a, w).
#[export] Instance M_bind {W} : MBind (M W) := fun A B f m w =>
  match m w with
  | (Ok a, w') => f a w'
  | (Raise e, w') => (Raise e, w')
  end.

Definition lift {W A} (r : result A) : M W A := fun w => (r, w).

(** ** Python numbers *)

(** [int(x)] on a float: truncation toward zero; NaN and the infinities raise. *)
Definition py_int (x : float) : result Z :=
  match Prim2SF x with
  | S754_zero _ => Ok 0
  | S754_infinity _ => Raise OverflowError
  | S754_nan => Raise ValueError
  | S754_finite s m e =>
      let magnitude := Z.shiftl (Z.pos m) e in
      Ok (if s then - magnitude else magnitude)
  end.

(** [str(n)] on an int. *)
Definition py_str (n : Z) : string := pretty n.

(** ** JSON-serializable values, as [json.loads] and [JSONResponse] see them *)

#[warnings="-register-all"]
Inductive json : Type :=
  | JNull
  | JBool (b : bool)
  | JInt (n : Z)
  | JFloat (x : float)
  | JStr (s : string)
  | JList (l : list json)
  | JDict (items : list (string * json)).

(** [d[key]] and [d.get(key, default)] on a decoded JSON value. *)
Fixpoint assoc_get (key : string) (items : list (string * json)) : option json :=
  match items with
  | [] => None
  | (k, v) :: rest => if decide (k = key) then Some v else assoc_get key rest
  end.

Definition json_getitem (j : json) (key : string) : result json :=
  match j with
  | JDict items =>
      match assoc_get key items with
      | Some v => Ok v
      | None => Raise (KeyError key)
      end
  | _ => Raise TypeError
  end.

Definition json_get (j : json) (key : string) (dflt : json) : result json :=
  match j with
  | JDict items => Ok (default dflt (assoc_get key items))
  | _ => Raise AttributeError
  end.

(** ** Pillow, as far as the three files use it

    [Image.open] only identifies the container; pixel data is decoded by
    [convert], so either may raise on bytes that are not a decodable image.
    The drawing operations of [ImageDraw] mutate the image they were created
    on: here each returns the updated image.  Arguments are in Pillow's
    order: [rectangle(xy, fill, outline, width)], [textbbox(xy, text, font)],
    [text(xy, text, fill, font)]. *)

Class Pillow := {
  Image : Type;
  Font : Type;
  Image_open : list Byte.byte -> result Image;
  Image_convert : Image -> string -> result Image;
  Image_size : Image -> Z * Z;
  Image_copy : Image -> Image;
  Image_save : Image -> string -> result (list Byte.byte);
  ImageFont_load_default : result Font;
  ImageDraw_rectangle :
    Image -> list json -> option string -> option string -> Z -> result Image;
  ImageDraw_textbbox :
    Image -> json * json -> string -> option Font -> result (list float);
  ImageDraw_text :
    Image -> json * json -> string -> string -> option Font -> result Image
}.

(** * detector.py *)

Module Detector.

Record BBox := {
  x1 : float;
  y1 : float;
  x2 : float;
  y2 : float;
  width : float;
  height : float;
  x_center : float;
  y_center : float;
  bbox_image_width : Z;
  bbox_image_height : Z
}.

Record Detection := {
  class_id : Z;
  class_name : string;
  confidence : float;
  bbox : BBox
}.

Record DetectionResult := {
  image_width : Z;
  image_height : Z;
  num_detections : Z;
  detections : list Detection
}.

(** The dictionaries themselves, keys in the order the source writes them. *)
Definition bbox_to_json (b : BBox) : json :=
  JDict [("x1", JFloat (x1 b)); ("y1", JFloat (y1 b));
         ("x2", JFloat (x2 b)); ("y2", JFloat (y2 b));
         ("width", JFloat (width b)); ("height", JFloat (height b));
         ("x_center", JFloat (x_center b)); ("y_center", JFloat (y_center b));
         ("image_width", JInt (bbox_image_width b));
         ("image_height", JInt (bbox_image_height b))]%string.

Definition detection_to_json (d : Detection) : json :=
  JDict [("class_id", JInt (class_id d));
         ("class_name", JStr (class_name d));
         ("confidence", JFloat (confidence d));
         ("bbox", bbox_to_json (bbox d))]%string.

Definition result_to_json (r : DetectionResult) : json :=
  JDict [("image_width", JInt (image_width r));
         ("image_height", JInt (image_height r));
         ("num_detections", JInt (num_detections r));
         ("detections", JList (detection_to_json <$> detections r))]%string.

(** The raw result object of ultralytics: [result.boxes.xyxy], [.cls],
    [.conf] after [.cpu().numpy()], and [result.names]. *)
Record Results := {
  xyxy : list (list float);
  cls : list float;
  conf : list float;
  names : gmap Z string
}.

(** One pass of the loop body of [_build_detections_dict]: unpack the row,
    convert the class id, look the label up, build the record. *)
Definition build_detection (names : gmap Z string)
    (image_width image_height : Z)
    (box : list float) (cls_id score : float) : result Detection :=
  match box with
  | [bx1; by1; bx2; by2] =>
      class_id ← py_int cls_id;
      let label := default (py_str class_id) (names !! class_id) in
      Ok {| class_id := class_id;
            class_name := label;
            confidence := score;
            bbox := {| x1 := bx1; y1 := by1; x2 := bx2; y2 := by2;
                       width := (bx2 - bx1)%float;
                       height := (by2 - by1)%float;
                       x_center := ((bx1 + bx2) / 2)%float;
                       y_center := ((by1 + by2) / 2)%float;
                       bbox_image_width := image_width;
                       bbox_image_height := image_height |} |}
  | _ => Raise ValueError
  end.

(** [for box, cls_id, score in zip(boxes, cls_ids, scores): detections.append(...)]:
    [zip] stops at the shortest of the three. *)
Fixpoint build_loop (names : gmap Z string) (image_width image_height : Z)
    (boxes : list (list float)) (cls_ids scores : list float)
    (detections : list Detection) : result (list Detection) :=
  match boxes, cls_ids, scores with
  | box :: boxes', cls_id :: cls_ids', score :: scores' =>
      d ← build_detection names image_width image_height box cls_id score;
      build_loop names image_width image_height boxes' cls_ids' scores'
        (detections ++ [d])
  | _, _, _ => Ok detections
  end.

Definition _build_detections_dict (boxes : list (list float))
    (cls_ids scores : list float) (names : gmap Z string)
    (image_width image_height : Z) : result DetectionResult :=
  detections ← build_loop names image_width image_height boxes cls_ids scores [];
  Ok {| image_width := image_width;
        image_height := image_height;
        num_detections := Z.of_nat (length detections);
        detections := detections |}.

(** What the loop body needs of a row and a class id to build a record:
    four coordinates, and a class id [int] accepts. *)
Definition well_formed (box : list float) (cls_id : float) : Prop :=
  length box = 4%nat /\ is_ok (py_int cls_id) = true.

Section Detector.
Context {PIL : Pillow} {ndarray : Type}.
Variable np_array : Image -> ndarray.

(** The loaded model is a callable on a pixel array and a threshold; it
    answers with one raw result per image of the batch, or raises. *)
Definition Model : Type := ndarray -> float -> result (list Results).

(** [YOLO(path)] moved to a device. *)
Variable YOLO : string -> string -> Model.

Record YoloObjectDetector := {
  model_path : string;
  device : string;
  conf_threshold : float;
  model : Model
}.

Definition _load_model (model_path device : string) : Model :=
  YOLO model_path device.

Definition __init__ (model_path device : string) (conf_threshold : float)
    : YoloObjectDetector :=
  {| model_path := model_path;
     device := device;
     conf_threshold := conf_threshold;
     model := _load_model model_path device |}.

(** What the detector does to the outside: each call of the model, with
    the arguments it was called on, latest first. *)
Record World := { inferences : list (ndarray * float) }.

Definition call_model (self : YoloObjectDetector) (img_np : ndarray)
    (conf : float) : M World (list Results) := fun w =>
  (model self img_np conf,
   {| inferences := (img_np, conf) :: inferences w |}).

Definition _run_inference (self : YoloObjectDetector) (image : Image)
    : M World Results :=
  let img_np := np_array image in
  results ← call_model self img_np (conf_threshold self);
  match results with
  | r :: _ => mret r
  | [] => lift (Raise IndexError)
  end.

Definition predict (self : YoloObjectDetector) (image : option Image)
    : M World DetectionResult :=
  match image with
  | None =>
      mret {| image_width := 0;
              image_height := 0;
              num_detections := 0;
              detections := [] |}
  | Some image =>
      image ← lift (Image_convert image "RGB");
      result ← _run_inference self image;
      let boxes := xyxy result in
      let cls_ids := cls result in
      let scores := conf result in
      let names := names result in
      let '(w, h) := Image_size image in
      lift (_build_detections_dict boxes cls_ids scores names w h)
  end.
End Detector.

End Detector.

(** * app/main.py *)

Module App.

Inductive Body :=
  | JsonBody (content : json)
  | TextBody (text : string)
  | ValidationErrors.

Record Response := { status_code : Z; body : Body }.

(** [JSONResponse(content)] renders its content when it is constructed, with
    [allow_nan=False]: a NaN or an infinity anywhere raises [ValueError]. *)
Fixpoint json_compliant (j : json) : bool :=
  match j with
  | JFloat x => negb (PrimFloat.is_nan x) && negb (PrimFloat.is_infinity x)
  | JList l => forallb json_compliant l
  | JDict items => forallb (fun '(_, v) => json_compliant v) items
  | _ => true
  end.

Definition JSONResponse (content : json) : result Response :=
  if json_compliant content
  then Ok {| status_code := 200; body := JsonBody content |}
  else Raise ValueError.

(** An exception that leaves a route function is answered by the framework
    with a plain-text 500; the process keeps serving. *)
Definition server_error : Response :=
  {| status_code := 500; body := TextBody "Internal Server Error" |}.

Definition respond {W} (handler : M W Response) (w : W) : Response * W :=
  match handler w with
  | (Ok response, w') => (response, w')
  | (Raise _, w') => (server_error, w')
  end.

(** The declaration [file: UploadFile = File(...)] makes the part required:
    a request without it is answered by the framework with 422 and its list
    of validation errors, and the route function is not called. *)
Definition unprocessable : Response :=
  {| status_code := 422; body := ValidationErrors |}.

(** The requests to the two routes: the upload may be missing. *)
Inductive Request :=
  | GET_health
  | POST_predict (file : list Byte.byte)
  | POST_predict_without_file.

Section App.
Context {PIL : Pillow} {ndarray : Type}.
Variable np_array : Image -> ndarray.
Variable YOLO : string -> string -> Detector.Model (ndarray := ndarray).

Abbreviation World := (Detector.World (ndarray := ndarray)).

(** Global detector instance, model loaded once. *)
Definition detector : Detector.YoloObjectDetector :=
  Detector.__init__ YOLO "yolov8n.pt" "cpu" 0.25%float.

Definition health_check : M World json :=
  mret (JDict [("status", JStr "ok")]%string).

Definition predict (file : list Byte.byte) : M World Response :=
  let image_bytes := file in
  image ← lift (opened ← Image_open image_bytes; Image_convert opened "RGB");
  detections ← Detector.predict np_array detector (Some image);
  lift (JSONResponse (Detector.result_to_json detections)).

(** The routes: a returned dictionary is sent as a JSON response. *)
Definition handle (request : Request) : World -> Response * World :=
  match request with
  | GET_health => respond (content ← health_check; lift (JSONResponse content))
  | POST_predict file => respond (predict file)
  | POST_predict_without_file => fun w => (unprocessable, w)
  end.
End App.

End App.

(** * ui/app.py *)

(** The Python runtime on decoded JSON values: [format(value, spec)] as the
    f-string uses it, and the arithmetic [a - b], [a + b]. *)
Class Python := {
  py_format : json -> string -> result string;
  py_sub : json -> json -> result json;
  py_add : json -> json -> result json
}.

(** [json.dump(obj, f, indent=..., ensure_ascii=...)] as the text that
    reaches the file and how the call ends: [Ok tt] when the whole document
    was written, [Raise e] when it stopped after that much (on a string that
    UTF-8 cannot encode, for one). And [json.loads]. *)
Class JsonLib := {
  json_dump : json -> Z -> bool -> string * result unit;
  json_loads : string -> result json
}.

Module Ui.

Definition API_URL : string := "http://localhost:8000/predict".
Definition OUTPUT_DIR : string := "ui_outputs".

Record HttpResponse := { status_code : Z; text : string }.

(** The client's surroundings: the files under the working directory (path
    to text), how many identifiers [uuid.uuid4] has handed out and how many
    requests have been sent. *)
Record World := {
  files : gmap string string;
  uuid_draws : nat;
  requests_made : nat
}.

Section Ui.
Context {PIL : Pillow} {Py : Python} {Json : JsonLib}.

(** The [n]-th identifier [uuid.uuid4().hex] returns. *)
Variable uuid4_hex : nat -> string.

(** What the [n]-th [requests.post] of the session is answered with. *)
Variable requests_post :
  nat -> string -> string * list Byte.byte * string -> result HttpResponse.

Definition uuid4 : M World string := fun w =>
  (Ok (uuid4_hex (uuid_draws w)),
   {| files := files w;
      uuid_draws := S (uuid_draws w);
      requests_made := requests_made w |}).

Definition post (url : string) (file : string * list Byte.byte * string)
    : M World HttpResponse := fun w =>
  (requests_post (requests_made w) url file,
   {| files := files w;
      uuid_draws := uuid_draws w;
      requests_made := S (requests_made w) |}).

(** What [open(path, "w")] is answered with once [n] identifiers have been
    drawn: the directory may be gone or closed to writing. *)
Variable open_w : nat -> string -> result unit.

(** The world with [content] under [path], created or replaced. *)
Definition put_file (path content : string) (w : World) : World :=
  {| files := <[path := content]> (files w);
     uuid_draws := uuid_draws w;
     requests_made := requests_made w |}.

(** [json_path.open("w", encoding="utf-8")]: raises what the system answers,
    or leaves an empty file under the path. *)
Definition open_write (path : string) : M World unit := fun w =>
  match open_w (uuid_draws w) path with
  | Ok _ => (Ok tt, put_file path "" w)
  | Raise e => (Raise e, w)
  end.

(** [json.dump(obj, f, indent=2, ensure_ascii=False)] into the opened file,
    which the [with] block closes whether the call returns or raises: the
    file holds what was written, complete or not. *)
Definition dump_to (obj : json) (path : string) : M World unit := fun w =>
  let '(text, outcome) := json_dump obj 2 false in
  (outcome, put_file path text w).

Definition raise_for_status (resp : HttpResponse) : result unit :=
  let status := status_code resp in
  if decide (400 <= status < 600) then Raise (HTTPError status) else Ok tt.

Definition response_json (resp : HttpResponse) : result json :=
  json_loads (text resp).

(** Iteration over a decoded value: a list gives its items, a dictionary
    its keys, a string its characters; anything else is not iterable. *)
Definition py_iter (j : json) : result (list json) :=
  match j with
  | JList l => Ok l
  | JDict items => Ok ((fun kv => JStr kv.1) <$> items)
  | JStr s => Ok ((fun c => JStr (String c EmptyString)) <$> String.list_ascii_of_string s)
  | _ => Raise TypeError
  end.

(** The body of the loop of [draw_boxes], on the image being annotated. *)
Definition draw_detection (font : option Font) (annotated : Image)
    (det : json) : result Image :=
  bbox ← json_getitem det "bbox";
  x1 ← json_getitem bbox "x1";
  y1 ← json_getitem bbox "y1";
  x2 ← json_getitem bbox "x2";
  y2 ← json_getitem bbox "y2";
  label ← json_getitem det "class_name";
  conf ← json_getitem det "confidence";
  label_text ← py_format label "";
  conf_text ← py_format conf ".2f";
  let text := (label_text +:+ " " +:+ conf_text)%string in
  annotated ← ImageDraw_rectangle annotated [x1; y1; x2; y2] None (Some "red"%string) 2;
  text_bbox ← ImageDraw_textbbox annotated (x1, y1) text font;
  match text_bbox with
  | [tb0; tb1; tb2; tb3] =>
      let tw := (tb2 - tb0)%float in
      let th := (tb3 - tb1)%float in
      top ← py_sub y1 (JFloat th);
      right ← py_add x1 (JFloat tw);
      let text_bg := [x1; top; right; y1] in
      annotated ← ImageDraw_rectangle annotated text_bg (Some "red"%string) None 1;
      top' ← py_sub y1 (JFloat th);
      ImageDraw_text annotated (x1, top') text "white" font
  | _ => Raise IndexError
  end.

Fixpoint draw_loop (font : option Font) (annotated : Image)
    (dets : list json) : result Image :=
  match dets with
  | [] => Ok annotated
  | det :: dets' =>
      annotated ← draw_detection font annotated det;
      draw_loop font annotated dets'
  end.

Definition draw_boxes (image : Image) (detections : json) : result Image :=
  let annotated := Image_copy image in
  let font := match ImageFont_load_default with
              | Ok font => Some font
              | Raise _ => None
              end in
  dets ← (found ← json_get detections "detections" (JList []); py_iter found);
  draw_loop font annotated dets.

Definition json_path_of (file_id : string) : string :=
  (OUTPUT_DIR +:+ "/" +:+ "detections_" +:+ file_id +:+ ".json")%string.

Definition save_detections_json (detections : json) : M World string :=
  file_id ← uuid4;
  let json_path := json_path_of file_id in
  open_write json_path;;
  dump_to detections json_path;;
  mret json_path.

Definition predict_gradio (image : option Image)
    : M World (option Image * option string) :=
  match image with
  | None => mret (None, None)
  | Some image =>
      buf ← lift (Image_save image "PNG");
      let files := ("image.png"%string, buf, "image/png"%string) in
      resp ← post API_URL files;
      lift (raise_for_status resp);;
      detections ← lift (response_json resp);
      annotated ← lift (draw_boxes image detections);
      json_path ← save_detections_json detections;
      mret (Some annotated, Some json_path)
  end.

(** *** Vocabulary for the properties of the export *)

(** The idealisation of [uuid.uuid4] the export relies on: no identifier
    still to come names a file that is already there. *)
Definition unused_ids (w : World) : Prop :=
  forall n, (uuid_draws w <= n)%nat -> files w !! json_path_of (uuid4_hex n) = None.

(** The world after an interaction that reached the export and wrote
    [text]: one request sent, one identifier drawn, one file put. *)
Definition exported_world (text : string) (w : World) : World :=
  {| files := <[json_path_of (uuid4_hex (uuid_draws w)) := text]> (files w);
     uuid_draws := S (uuid_draws w);
     requests_made := S (requests_made w) |}.

(** Reading a file back with [json.load]. *)
Definition load_json (path : string) (w : World) : result json :=
  match files w !! path with
  | Some content => json_loads content
  | None => Raise OSError
  end.

(** A session: the callback run on each input in turn. *)
Fixpoint session (images : list (option Image)) (w : World)
    : list (result (option Image * option string)) * World :=
  match images with
  | [] => ([], w)
  | image :: images' =>
      let '(out, w') := predict_gradio image w in
      let '(outs, w'') := session images' w' in
      (out :: outs, w'')
  end.

(** The paths of the JSON files a session handed to the user. *)
Definition exported (outs : list (result (option Image * option string)))
    : list string :=
  omap (fun out => match out with
                   | Ok (_, Some json_path) => Some json_path
                   | _ => None
                   end) outs.

(** The rest of the loop body of [draw_boxes] once the seven values have been
    read out of the detection: the text, the box, the tag and the label. *)
Definition draw_record (font : option Font) (annotated : Image)
    (x1 y1 x2 y2 label conf : json) : result Image :=
  label_text ← py_format label "";
  conf_text ← py_format conf ".2f";
  let text := (label_text +:+ " " +:+ conf_text)%string in
  annotated ← ImageDraw_rectangle annotated [x1; y1; x2; y2] None (Some "red"%string) 2;
  text_bbox ← ImageDraw_textbbox annotated (x1, y1) text font;
  match text_bbox with
  | [tb0; tb1; tb2; tb3] =>
      let tw := (tb2 - tb0)%float in
      let th := (tb3 - tb1)%float in
      top ← py_sub y1 (JFloat th);
      right ← py_add x1 (JFloat tw);
      let text_bg := [x1; top; right; y1] in
      annotated ← ImageDraw_rectangle annotated text_bg (Some "red"%string) None 1;
      top' ← py_sub y1 (JFloat th);
      ImageDraw_text annotated (x1, top') text "white" font
  | _ => Raise IndexError
  end.
End Ui.

End Ui.

(** * Concrete stand-ins for the libraries, to run the code on *)

Module Sample.

(** A picture is its size and the marks drawn on it, latest first. *)
Record Picture := { picture_size : Z * Z; marks : list string }.

Definition png_signature : list Byte.byte :=
  [Byte.x89; Byte.x50; Byte.x4e; Byte.x47; Byte.x0d; Byte.x0a; Byte.x1a; Byte.x0a].

(** Five bytes that are no image. *)
Definition hello : list Byte.byte :=
  [Byte.x68; Byte.x65; Byte.x6c; Byte.x6c; Byte.x6f].

Definition blank : Picture := {| picture_size := (640, 480); marks := [] |}.

Definition mark (m : string) (p : Picture) : Picture :=
  {| picture_size := picture_size p; marks := m :: marks p |}.

Definition open_picture (data : list Byte.byte) : result Picture :=
  if decide (Byte.to_N <$> take 8 data = Byte.to_N <$> png_signature) then Ok blank
  else Raise UnidentifiedImageError.

#[export] Instance pillow : Pillow := {|
  Image := Picture;
  Font := unit;
  Image_open := open_picture;
  Image_convert := fun p _ => Ok p;
  Image_size := picture_size;
  Image_copy := fun p => p;
  Image_save := fun _ _ => Ok png_signature;
  ImageFont_load_default := Ok tt;
  ImageDraw_rectangle := fun p _ _ _ _ => Ok (mark "rectangle" p);
  ImageDraw_textbbox := fun _ _ _ _ => Ok [0; 0; 30; 11]%float;
  ImageDraw_text := fun p _ text _ _ => Ok (mark text p)
|}.

#[export] Instance python : Python := {|
  py_format := fun j spec =>
    match j with
    | JStr s => if decide (spec = ""%string) then Ok s else Raise ValueError
    | JInt n => Ok (pretty n)
    | JFloat _ => Ok "0.50"%string
    | _ => Raise TypeError
    end;
  py_sub := fun a b =>
    match a, b with
    | JFloat x, JFloat y => Ok (JFloat (x - y))
    | _, _ => Raise TypeError
    end;
  py_add := fun a b =>
    match a, b with
    | JFloat x, JFloat y => Ok (JFloat (x + y))
    | _, _ => Raise TypeError
    end
|}.

(** The pixel array of a picture is the picture. *)
Definition pixels (p : Picture) : Picture := p.

(** A model that finds one person in every picture. *)
Definition one_person : Detector.Results :=
  {| Detector.xyxy := [[10; 20; 110; 220]%float];
     Detector.cls := [0%float];
     Detector.conf := [0.5%float];
     Detector.names := {[ 0 := "person"%string ]} |}.

Definition yolo (path device : string) : Detector.Model (ndarray := Picture) :=
  fun _ _ => Ok [one_person].

Definition person : Detector.Detection :=
  {| Detector.class_id := 0;
     Detector.class_name := "person";
     Detector.confidence := 0.5%float;
     Detector.bbox :=
       {| Detector.x1 := 10; Detector.y1 := 20;
          Detector.x2 := 110; Detector.y2 := 220;
          Detector.width := 100; Detector.height := 200;
          Detector.x_center := 60; Detector.y_center := 120;
          Detector.bbox_image_width := 640;
          Detector.bbox_image_height := 480 |} |}.

(** The same box under a class id the model has no name for. *)
Definition unnamed_class : Detector.Detection :=
  {| Detector.class_id := 7;
     Detector.class_name := "7";
     Detector.confidence := 0.5%float;
     Detector.bbox := Detector.bbox person |}.

Definition one_person_result : Detector.DetectionResult :=
  {| Detector.image_width := 640;
     Detector.image_height := 480;
     Detector.num_detections := 1;
     Detector.detections := [person] |}.

Definition start : Detector.World (ndarray := Picture) :=
  {| Detector.inferences := [] |}.

(** A JSON library: a one-line printer, and a reader that knows the two
    documents the sample server sends. *)
Definition quote : string := String (Ascii.ascii_of_nat 34) EmptyString.

Fixpoint print_json (j : json) : string :=
  match j with
  | JNull => "null"
  | JBool b => if b then "true" else "false"
  | JInt n => pretty n
  | JFloat x =>
      match py_int x with
      | Ok n => pretty n +:+ ".0"
      | Raise _ => "NaN"
      end
  | JStr s => quote +:+ s +:+ quote
  | JList l => "[" +:+ String.concat ", " (List.map print_json l) +:+ "]"
  | JDict items =>
      "{" +:+ String.concat ", "
                (List.map (fun '(k, v) => quote +:+ k +:+ quote +:+ ": " +:+ print_json v)
                   items) +:+ "}"
  end%string.

Definition one_person_json : json := Detector.result_to_json one_person_result.

Definition read_json (text : string) : result json :=
  if decide (text = print_json one_person_json) then Ok one_person_json
  else if decide (text = "{}"%string) then Ok (JDict [])
  else Raise JSONDecodeError.

#[export] Instance jsonlib : JsonLib := {|
  json_dump := fun j _ _ => (print_json j, Ok tt);
  json_loads := read_json
|}.


(** A directory that takes every file, and one that takes none. *)
Definition open_ok (n : nat) (path : string) : result unit := Ok tt.
Definition open_denied (n : nat) (path : string) : result unit := Raise OSError.



(** Identifiers that never repeat. *)
Definition uuid4_hex (n : nat) : string := pretty n.

(** A server that answers the first request of a session with one person
    and every later one with an error. *)
Definition server (n : nat) (url : string)
    (file : string * list Byte.byte * string) : result Ui.HttpResponse :=
  match n with
  | O => Ok {| Ui.status_code := 200; Ui.text := print_json one_person_json |}
  | S _ => Ok {| Ui.status_code := 500; Ui.text := "Internal Server Error" |}
  end.


(** A Pillow that identifies every upload but cannot decode any. *)
Definition truncated_pillow : Pillow := {|
  Image := Picture;
  Font := unit;
  Image_open := fun _ => Ok blank;
  Image_convert := fun _ _ => Raise OSError;
  Image_size := picture_size;
  Image_copy := fun p => p;
  Image_save := fun _ _ => Ok png_signature;
  ImageFont_load_default := Ok tt;
  ImageDraw_rectangle := fun p _ _ _ _ => Ok (mark "rectangle" p);
  ImageDraw_textbbox := fun _ _ _ _ => Ok [0; 0; 30; 11]%float;
  ImageDraw_text := fun p _ text _ _ => Ok (mark text p)
|}.

(** A model that answers with an empty batch, and a detector around it. *)
Definition silent_yolo : Detector.Model (ndarray := Picture) := fun _ _ => Ok [].

Definition silent_detector : Detector.YoloObjectDetector (ndarray := Picture) :=
  {| Detector.model_path := "yolov8n.pt"; Detector.device := "cpu";
     Detector.conf_threshold := 0.25%float; Detector.model := silent_yolo |}.

Definition one_person_detector : Detector.YoloObjectDetector (ndarray := Picture) :=
  {| Detector.model_path := "yolov8n.pt"; Detector.device := "cpu";
     Detector.conf_threshold := 0.25%float;
     Detector.model := yolo "yolov8n.pt" "cpu" |}.

(** A server that answers every request with an empty JSON object. *)
Definition steady_server (n : nat) (url : string)
    (file : string * list Byte.byte * string) : result Ui.HttpResponse :=
  Ok {| Ui.status_code := 200; Ui.text := "{}" |}.

Definition empty_dir : Ui.World :=
  {| Ui.files := ∅; Ui.uuid_draws := 0; Ui.requests_made := 0 |}.

Definition after_one : Ui.World :=
  (Ui.predict_gradio uuid4_hex server open_ok (Some blank) empty_dir).2.


End Sample.

(** * Sequencing: what a run that returned went through *)

Lemma bind_Ok {A B} (r : result A) (f : A -> result B) (b : B) :
  r ≫= f = Ok b -> exists a, r = Ok a /\ f a = Ok b.
Proof. destruct r as [a|e]; [eauto | discriminate]. Qed.

Lemma M_bind_Ok {W A B} (m : M W A) (f : A -> M W B) w b w' :
  (m ≫= f) w = (Ok b, w') ->
  exists a w1, m w = (Ok a, w1) /\ f a w1 = (Ok b, w').
Proof.
  unfold mbind, M_bind. destruct (m w) as [[a|e] w1]; [eauto | discriminate].
Qed.

Lemma M_bind_Raise {W A B} (m : M W A) (f : A -> M W B) w e w' :
  m w = (Raise e, w') -> (m ≫= f) w = (Raise e, w').
Proof. unfold mbind, M_bind. by intros ->. Qed.

Lemma lift_Ok {W A} (r : result A) (w w' : W) a :
  lift r w = (Ok a, w') -> r = Ok a /\ w' = w.
Proof. unfold lift. by intros [= -> ->]. Qed.

(** * Running the code *)

Module Runs.
Import Sample.

Example py_int_truncates :
  py_int 7.5%float = Ok 7 /\ py_int (-7.5)%float = Ok (-7) /\
  py_int 0.25%float = Ok 0 /\ py_int (-0)%float = Ok 0 /\
  py_int 4294967296%float = Ok 4294967296.
Proof. vm_compute. repeat split; reflexivity. Qed.

Example py_int_raises :
  py_int nan = Raise ValueError /\
  py_int infinity = Raise OverflowError /\
  py_int neg_infinity = Raise OverflowError.
Proof. vm_compute. repeat split; reflexivity. Qed.

Example client_first_interaction :
  Ui.predict_gradio Sample.uuid4_hex Sample.server Sample.open_ok
    (Some Sample.blank) Sample.empty_dir
  = (Ok (Some {| Sample.picture_size := (640, 480);
                 Sample.marks := ["person 0.50"; "rectangle"; "rectangle"]%string |},
         Some "ui_outputs/detections_0.json"%string),
     {| Ui.files := {[ "ui_outputs/detections_0.json"%string
                       := Sample.print_json Sample.one_person_json ]};
        Ui.uuid_draws := 1;
        Ui.requests_made := 1 |}).
Proof. vm_compute. reflexivity. Qed.

End Runs.

(** * Properties of detector.py *)

Module DetectorSpec.
Import Detector.

Example build_one_person :
  _build_detections_dict [[10; 20; 110; 220]%float] [0%float] [0.5%float]
    {[ 0 := "person"%string ]} 640 480 = Ok Sample.one_person_result.
Proof. vm_compute. reflexivity. Qed.

(** ** The loop *)

Section Loop.
Variable names : gmap Z string.
Variables image_width image_height : Z.

Local Abbreviation body := (build_detection names image_width image_height).
Local Abbreviation loop := (build_loop names image_width image_height).

(** The loop only appends: what it returns is the accumulator followed by
    one record per position of the zipped arrays, in that order. *)
Lemma loop_positions boxes : forall cls_ids scores acc ds,
  loop boxes cls_ids scores acc = Ok ds ->
  exists new,
    ds = acc ++ new /\
    length new = Nat.min (Nat.min (length boxes) (length cls_ids)) (length scores) /\
    forall i d, new !! i = Some d ->
      exists box cls_id score,
        boxes !! i = Some box /\ cls_ids !! i = Some cls_id /\
        scores !! i = Some score /\ body box cls_id score = Ok d.
Proof.
  induction boxes as [|box boxes IH]; intros cls_ids scores acc ds Hloop.
  - simpl in Hloop. injection Hloop as <-. exists []. rewrite app_nil_r.
    split; [done | split; [done |]].
    intros i d Hi. by rewrite lookup_nil in Hi.
  - destruct cls_ids as [|c cls_ids], scores as [|s scores]; simpl in Hloop;
      try (injection Hloop as <-; exists []; rewrite app_nil_r;
           split; [done | split; [simpl; lia |]];
           intros i d Hi; by rewrite lookup_nil in Hi).
    apply bind_Ok in Hloop as (d0 & Hbody & Hrest).
    apply IH in Hrest as (new & -> & Hlen & Hpos).
    exists (d0 :: new). rewrite <- app_assoc.
    split; [done | split].
    + simpl. rewrite Hlen. lia.
    + intros [|i] d Hi; simpl in Hi.
      * injection Hi as <-. by exists box, c, s.
      * apply Hpos in Hi as (b & c' & s' & ? & ? & ? & ?).
        by exists b, c', s'.
Qed.

(** Whatever holds of every record the body can build holds of every
    record the loop adds. *)
Lemma loop_Forall (P : Detection -> Prop) boxes cls_ids scores acc ds :
  (forall box cls_id score d, body box cls_id score = Ok d -> P d) ->
  Forall P acc ->
  loop boxes cls_ids scores acc = Ok ds ->
  Forall P ds.
Proof.
  intros Hbody Hacc Hloop.
  apply loop_positions in Hloop as (new & -> & _ & Hpos).
  apply Forall_app. split; [done |].
  apply Forall_lookup. intros i d Hi.
  apply Hpos in Hi as (box & c & s & _ & _ & _ & Hd). eauto.
Qed.

(** The loop cannot fail on rows of four coordinates and finite class ids. *)
Lemma loop_total boxes : forall cls_ids scores acc,
  Forall (fun box => length box = 4%nat) boxes ->
  Forall (fun c => is_ok (py_int c) = true) cls_ids ->
  exists ds, loop boxes cls_ids scores acc = Ok ds.
Proof.
  induction boxes as [|box boxes IH]; intros cls_ids scores acc Hb Hc.
  - simpl. eauto.
  - destruct cls_ids as [|c cls_ids], scores as [|s scores]; simpl; eauto.
    apply Forall_cons in Hb as [Hbox Hb]. apply Forall_cons in Hc as [Hcls Hc].
    destruct box as [|a [|b [|c' [|d [|? ?]]]]]; try discriminate.
    simpl. destruct (py_int c); [| discriminate]. simpl. by apply IH.
Qed.
End Loop.

Lemma build_Ok boxes cls_ids scores names w h r :
  _build_detections_dict boxes cls_ids scores names w h = Ok r ->
  exists ds,
    build_loop names w h boxes cls_ids scores [] = Ok ds /\
    r = {| image_width := w; image_height := h;
           num_detections := Z.of_nat (length ds); detections := ds |}.
Proof.
  unfold _build_detections_dict. intros Hr.
  apply bind_Ok in Hr as (ds & Hloop & Hr). injection Hr as <-. eauto.
Qed.

(** The function returns on every well-shaped input: [N] rows of four
    coordinates and finite class ids. *)
Lemma build_total boxes cls_ids scores names w h :
  Forall (fun box => length box = 4%nat) boxes ->
  Forall (fun c => is_ok (py_int c) = true) cls_ids ->
  exists r, _build_detections_dict boxes cls_ids scores names w h = Ok r.
Proof.
  intros Hb Hc. unfold _build_detections_dict.
  destruct (loop_total names w h boxes cls_ids scores [] Hb Hc) as [ds ->].
  simpl. eauto.
Qed.

(** What one pass of the loop body puts into the record. *)
Lemma build_detection_Ok names w h box cls_id score d :
  build_detection names w h box cls_id score = Ok d ->
  box = [x1 (bbox d); y1 (bbox d); x2 (bbox d); y2 (bbox d)] /\
  py_int cls_id = Ok (class_id d) /\
  class_name d = default (py_str (class_id d)) (names !! class_id d) /\
  confidence d = score /\
  width (bbox d) = (x2 (bbox d) - x1 (bbox d))%float /\
  height (bbox d) = (y2 (bbox d) - y1 (bbox d))%float /\
  x_center (bbox d) = ((x1 (bbox d) + x2 (bbox d)) / 2)%float /\
  y_center (bbox d) = ((y1 (bbox d) + y2 (bbox d)) / 2)%float /\
  bbox_image_width (bbox d) = w /\
  bbox_image_height (bbox d) = h.
Proof.
  unfold build_detection. intros Hd.
  destruct box as [|a [|b [|c [|e [|? ?]]]]]; try discriminate.
  apply bind_Ok in Hd as (n & Hn & Hd). injection Hd as <-. simpl.
  by repeat split.
Qed.

Lemma build_detections_Forall (P : Detection -> Prop)
    boxes cls_ids scores names w h r :
  (forall box cls_id score d,
     build_detection names w h box cls_id score = Ok d -> P d) ->
  _build_detections_dict boxes cls_ids scores names w h = Ok r ->
  Forall P (detections r).
Proof.
  intros HP Hr. apply build_Ok in Hr as (ds & Hloop & ->). simpl.
  by eapply loop_Forall.
Qed.

(** A row that is not four numbers stops the whole call. *)
Example build_short_row :
  _build_detections_dict [[10; 20; 110]%float] [0%float] [0.5%float] ∅ 640 480
  = Raise ValueError.
Proof. reflexivity. Qed.

(** So does a class id that is not a number. *)
Example build_nan_class :
  _build_detections_dict [[10; 20; 110; 220]%float] [nan] [0.5%float] ∅ 640 480
  = Raise ValueError.
Proof. vm_compute. reflexivity. Qed.

(** ** The detection record *)

Ltac sample_call :=
  first [ exact build_one_person | by left | vm_compute; reflexivity ].

(** C1: in every result [_build_detections_dict] returns, whatever the
    arrays and the image dimensions, [num_detections] is the length of
    [detections]. *)
Theorem num_detections_is_length boxes cls_ids scores names w h r :
  _build_detections_dict boxes cls_ids scores names w h = Ok r ->
  num_detections r = Z.of_nat (length (detections r)).
Proof.
  intros Hr. by apply build_Ok in Hr as (ds & _ & ->).
Qed.

Lemma num_detections_is_length_witness :
  num_detections Sample.one_person_result
  = Z.of_nat (length (detections Sample.one_person_result)).
Proof.
  apply (num_detections_is_length [[10; 20; 110; 220]%float] [0%float]
           [0.5%float] {[ 0 := "person"%string ]} 640 480).
  sample_call.
Defined.

(** C2: in every record of every result, width, height and the centre are
    computed from the record's own corners, [x2 - x1], [y2 - y1],
    [(x1 + x2) / 2] and [(y1 + y2) / 2] in binary64 arithmetic, and the four
    corners are a row of the input as it came: nothing is clamped or
    rounded. *)
Theorem bbox_derived_from_corners boxes cls_ids scores names w h r d :
  _build_detections_dict boxes cls_ids scores names w h = Ok r ->
  d ∈ detections r ->
  width (bbox d) = (x2 (bbox d) - x1 (bbox d))%float /\
  height (bbox d) = (y2 (bbox d) - y1 (bbox d))%float /\
  x_center (bbox d) = ((x1 (bbox d) + x2 (bbox d)) / 2)%float /\
  y_center (bbox d) = ((y1 (bbox d) + y2 (bbox d)) / 2)%float /\
  [x1 (bbox d); y1 (bbox d); x2 (bbox d); y2 (bbox d)] ∈ boxes.
Proof.
  intros Hr Hd. apply build_Ok in Hr as (ds & Hloop & ->). simpl in Hd.
  apply loop_positions in Hloop as (new & -> & _ & Hpos). simpl in Hd.
  apply list_elem_of_lookup in Hd as [i Hi].
  apply Hpos in Hi as (box & c & s & Hbox & _ & _ & Hbody).
  apply build_detection_Ok in Hbody
    as (-> & _ & _ & _ & Hw & Hh & Hx & Hy & _ & _).
  repeat split; try done.
  apply list_elem_of_lookup. eauto.
Qed.

Lemma bbox_derived_from_corners_witness :
  width (bbox Sample.person) = 100%float /\
  height (bbox Sample.person) = 200%float /\
  x_center (bbox Sample.person) = 60%float /\
  y_center (bbox Sample.person) = 120%float /\
  [10; 20; 110; 220]%float ∈ [[10; 20; 110; 220]%float].
Proof.
  apply (bbox_derived_from_corners [[10; 20; 110; 220]%float] [0%float]
           [0.5%float] {[ 0 := "person"%string ]} 640 480
           Sample.one_person_result Sample.person); sample_call.
Defined.

(** C6: the label of a record is the model's name for its class id when the
    mapping has one, and the class id written out in decimal when it has
    none. *)
Theorem class_name_lookup_or_id boxes cls_ids scores names w h r d :
  _build_detections_dict boxes cls_ids scores names w h = Ok r ->
  d ∈ detections r ->
  (names !! class_id d = None -> class_name d = py_str (class_id d)) /\
  (forall label, names !! class_id d = Some label -> class_name d = label).
Proof.
  intros Hr. revert d. apply Forall_forall.
  eapply build_detections_Forall; [| exact Hr].
  intros box c s d Hd.
  apply build_detection_Ok in Hd as (_ & _ & -> & _).
  split; [by intros -> | by intros label ->].
Qed.

Lemma class_name_lookup_or_id_witness :
  (({[ 0 := "person"%string ]} : gmap Z string) !! 7 = None ->
   class_name Sample.unnamed_class = "7"%string) /\
  (forall label, ({[ 0 := "person"%string ]} : gmap Z string) !! 7 = Some label ->
   class_name Sample.unnamed_class = label).
Proof.
  apply (class_name_lookup_or_id [[10; 20; 110; 220]%float] [7.5%float]
           [0.5%float] {[ 0 := "person"%string ]} 640 480
           {| image_width := 640; image_height := 480;
              num_detections := 1; detections := [Sample.unnamed_class] |}
           Sample.unnamed_class).
  - vm_compute. reflexivity.
  - by left.
Defined.

(** C7: the three arrays are zipped position by position and nothing is
    re-ordered: the result has one record per position up to the shortest
    array, and the record at position [i] is the one the loop body builds
    from the box, the class id and the score at position [i]. *)
Theorem detections_in_emission_order boxes cls_ids scores names w h r :
  _build_detections_dict boxes cls_ids scores names w h = Ok r ->
  length (detections r)
  = Nat.min (Nat.min (length boxes) (length cls_ids)) (length scores) /\
  forall i d, detections r !! i = Some d ->
    exists box cls_id score,
      boxes !! i = Some box /\ cls_ids !! i = Some cls_id /\
      scores !! i = Some score /\
      build_detection names w h box cls_id score = Ok d /\
      box = [x1 (bbox d); y1 (bbox d); x2 (bbox d); y2 (bbox d)] /\
      py_int cls_id = Ok (class_id d) /\
      confidence d = score.
Proof.
  intros Hr. apply build_Ok in Hr as (ds & Hloop & ->). simpl.
  apply loop_positions in Hloop as (new & -> & Hlen & Hpos). simpl.
  split; [done |]. intros i d Hi.
  destruct (Hpos i d Hi) as (box & c & s & ? & ? & ? & Hbody).
  exists box, c, s.
  destruct (build_detection_Ok _ _ _ _ _ _ _ Hbody) as (? & ? & _ & ? & _).
  by repeat split.
Qed.

Lemma detections_in_emission_order_witness :
  length (detections Sample.one_person_result)
  = Nat.min (Nat.min 1 1) 1 /\
  forall i d, detections Sample.one_person_result !! i = Some d ->
    exists box cls_id score,
      [[10; 20; 110; 220]%float] !! i = Some box /\
      [0%float] !! i = Some cls_id /\
      [0.5%float] !! i = Some score /\
      build_detection {[ 0 := "person"%string ]} 640 480 box cls_id score = Ok d /\
      box = [x1 (bbox d); y1 (bbox d); x2 (bbox d); y2 (bbox d)] /\
      py_int cls_id = Ok (class_id d) /\
      confidence d = score.
Proof.
  apply (detections_in_emission_order [[10; 20; 110; 220]%float] [0%float]
           [0.5%float] {[ 0 := "person"%string ]} 640 480
           Sample.one_person_result).
  sample_call.
Defined.

(** The order is the model's even where another order would differ: the
    less confident detection stays first when the model emits it first. *)
Example build_keeps_order :
  (r ← _build_detections_dict
         [[0; 0; 1; 1]%float; [0; 0; 9; 9]%float] [3%float; 1%float]
         [0.25%float; 0.75%float] ∅ 10 10;
   Ok ((fun d => (class_id d, confidence d)) <$> detections r))
  = Ok [(3, 0.25%float); (1, 0.75%float)].
Proof. vm_compute. reflexivity. Qed.

(** C10: every record carries, inside its bbox, the image width and height
    of the result it is part of. *)
Theorem bbox_repeats_image_size boxes cls_ids scores names w h r d :
  _build_detections_dict boxes cls_ids scores names w h = Ok r ->
  d ∈ detections r ->
  bbox_image_width (bbox d) = image_width r /\
  bbox_image_height (bbox d) = image_height r.
Proof.
  intros Hr. revert d. apply Forall_forall.
  destruct (build_Ok _ _ _ _ _ _ _ Hr) as (ds & _ & Heq).
  eapply build_detections_Forall; [| exact Hr].
  intros box c s d Hd. rewrite Heq. simpl.
  by apply build_detection_Ok in Hd as (_ & _ & _ & _ & _ & _ & _ & _ & ? & ?).
Qed.

Lemma bbox_repeats_image_size_witness :
  bbox_image_width (bbox Sample.person) = 640 /\
  bbox_image_height (bbox Sample.person) = 480.
Proof.
  apply (bbox_repeats_image_size [[10; 20; 110; 220]%float] [0%float]
           [0.5%float] {[ 0 := "person"%string ]} 640 480
           Sample.one_person_result Sample.person); sample_call.
Defined.

(** ** The public method *)

Section Predict.
Context {PIL : Pillow} {ndarray : Type}.
Variable np_array : Image -> ndarray.

(** C3: on an absent image [predict] returns, without failing, the result
    with zero width, zero height, zero count and no detections, that is the
    dictionary [{"image_width": 0, "image_height": 0, "num_detections": 0,
    "detections": []}], and leaves the world as it was: the model is not
    called. *)
Theorem predict_absent_image (self : YoloObjectDetector) (w : World) :
  predict np_array self None w
  = (Ok {| image_width := 0; image_height := 0;
           num_detections := 0; detections := [] |}, w) /\
  (r ← (predict np_array self None w).1; Ok (result_to_json r))
  = Ok (JDict [("image_width", JInt 0); ("image_height", JInt 0);
           ("num_detections", JInt 0); ("detections", JList [])]%string).
Proof. split; reflexivity. Qed.

(** A call that returns on a present image went through the conversion,
    one call of the model and the normalization of its first result. *)
Lemma predict_present_Ok (self : YoloObjectDetector) image w r w' :
  predict np_array self (Some image) w = (Ok r, w') ->
  exists rgb raw rest,
    Image_convert image "RGB" = Ok rgb /\
    model self (np_array rgb) (conf_threshold self) = Ok (raw :: rest) /\
    _build_detections_dict (xyxy raw) (cls raw) (conf raw) (names raw)
      (Image_size rgb).1 (Image_size rgb).2 = Ok r /\
    inferences w' = (np_array rgb, conf_threshold self) :: inferences w.
Proof.
  unfold predict, mbind, M_bind, lift, _run_inference, mbind, M_bind, call_model.
  intros Hp.
  destruct (Image_convert image "RGB") as [rgb|e] eqn:Hconv; [| discriminate].
  destruct (model self (np_array rgb) (conf_threshold self))
    as [[|raw rest]|e] eqn:Hmodel; simpl in Hp; try discriminate.
  destruct (Image_size rgb) as [iw ih] eqn:Hsize.
  injection Hp as Hr <-. exists rgb, raw, rest. by rewrite Hsize.
Qed.

(** The count is the length of the list on both paths of [predict]. *)
Lemma predict_count (self : YoloObjectDetector) image w r w' :
  predict np_array self image w = (Ok r, w') ->
  num_detections r = Z.of_nat (length (detections r)).
Proof.
  destruct image as [image|].
  - intros Hp. apply predict_present_Ok in Hp as (? & ? & ? & _ & _ & Hr & _).
    by apply build_Ok in Hr as (ds & _ & ->).
  - intros Hp. by injection Hp as <- _.
Qed.
End Predict.

End DetectorSpec.


(** * Properties of app/main.py *)

Module AppSpec.
Import App.

(** An upload that is an image is answered with the detections. *)
Example predict_png :
  handle (PIL := Sample.pillow) Sample.pixels Sample.yolo
    (POST_predict Sample.png_signature) Sample.start
  = ({| status_code := 200; body := JsonBody Sample.one_person_json |},
     {| Detector.inferences := [(Sample.blank, 0.25%float)] |}).
Proof. vm_compute. reflexivity. Qed.

Section Routes.
Context {PIL : Pillow} {ndarray : Type}.
Variable np_array : Image -> ndarray.
Variable YOLO : string -> string -> Detector.Model (ndarray := ndarray).

(** C5: [GET /health] is answered with status 200 and the body
    [{"status": "ok"}] in every world and for every model behind the
    detector; the route takes no parameter, and the world it leaves is the
    one it found: no inference, no other effect. *)
Theorem health_always_ok (w : Detector.World) :
  handle np_array YOLO GET_health w
  = ({| status_code := 200;
        body := JsonBody (JDict [("status", JStr "ok")]%string) |}, w).
Proof. reflexivity. Qed.

(** C4, as the code has it: when the upload cannot be decoded, the exception
    of the decoder leaves the route function; the answer is the framework's
    500, the model has not been called, and the service goes on from the
    world it was in. *)
Theorem undecodable_upload_is_server_error (file : list Byte.byte) e w :
  (opened ← Image_open file; Image_convert opened "RGB") = Raise e ->
  handle np_array YOLO (POST_predict file) w
  = ({| status_code := 500; body := TextBody "Internal Server Error" |}, w).
Proof.
  intros Hdecode. unfold handle, respond, predict, lift.
  unfold mbind at 1, M_bind. by rewrite Hdecode.
Qed.

End Routes.

Lemma undecodable_upload_is_server_error_witness :
  handle (PIL := Sample.pillow) Sample.pixels Sample.yolo
    (POST_predict Sample.hello) Sample.start
  = ({| status_code := 500; body := TextBody "Internal Server Error" |},
     Sample.start).
Proof.
  apply (undecodable_upload_is_server_error (PIL := Sample.pillow)
           Sample.pixels Sample.yolo Sample.hello UnidentifiedImageError).
  vm_compute. reflexivity.
Defined.

(** C4 as stated fails: the five bytes of "hello" are not an image, and the
    status they are answered with is not in the 4xx range. *)
Lemma undecodable_upload_not_client_error :
  Image_open (Pillow := Sample.pillow) Sample.hello = Raise UnidentifiedImageError /\
  ~ (400 <= status_code
              (handle (PIL := Sample.pillow) Sample.pixels Sample.yolo
                 (POST_predict Sample.hello) Sample.start).1 < 500).
Proof. split; [vm_compute; reflexivity | vm_compute; intros [_ Hlt]; discriminate]. Qed.

End AppSpec.


(** * Properties of ui/app.py *)

Module UiSpec.
Import Ui.

(** The callback on the sample server: the second request of a session is
    refused, and nothing is drawn or written. *)
Example client_second_interaction :
  Ui.predict_gradio (PIL := Sample.pillow) (Py := Sample.python)
    (Json := Sample.jsonlib) Sample.uuid4_hex Sample.server Sample.open_ok
    (Some Sample.blank) Sample.after_one
  = (Raise (HTTPError 500),
     {| files := {[ "ui_outputs/detections_0.json"%string
                    := Sample.print_json Sample.one_person_json ]};
        uuid_draws := 1;
        requests_made := 2 |}).
Proof. vm_compute. reflexivity. Qed.

(** ** File names *)

Lemma length_append (a b : string) :
  String.length (a +:+ b) = (String.length a + String.length b)%nat.
Proof. induction a as [|c a IH]; simpl; [done | by rewrite IH]. Qed.

Lemma append_cancel_r (a b suffix : string) :
  (a +:+ suffix = b +:+ suffix)%string -> a = b.
Proof.
  revert b. induction a as [|c a IH]; intros [|c' b] Heq.
  - done.
  - apply (f_equal String.length) in Heq.
    rewrite !length_append in Heq. simpl in Heq. lia.
  - apply (f_equal String.length) in Heq.
    rewrite !length_append in Heq. simpl in Heq. lia.
  - change (String c (a +:+ suffix) = String c' (b +:+ suffix)) in Heq.
    injection Heq as -> Heq. f_equal. by apply IH.
Qed.

(** The path embeds the identifier: different identifiers, different paths. *)
Lemma json_path_of_inj : Inj (=) (=) json_path_of.
Proof.
  intros a b Heq. unfold json_path_of in Heq.
  do 3 apply (inj (String.app _)) in Heq.
  by apply append_cancel_r in Heq.
Qed.

Section Callback.
Context {PIL : Pillow} {Py : Python} {Json : JsonLib}.
Variable uuid4_hex : nat -> string.
Variable requests_post :
  nat -> string -> string * list Byte.byte * string -> result HttpResponse.
Variable open_w : nat -> string -> result unit.

Local Abbreviation predict_gradio :=
  (predict_gradio uuid4_hex requests_post open_w).
Local Abbreviation save_detections_json :=
  (save_detections_json uuid4_hex open_w).
Local Abbreviation unused_ids := (unused_ids uuid4_hex).
Local Abbreviation session := (session uuid4_hex requests_post open_w).

(** ** The export step *)

(** The three ways [save_detections_json] ends, all with one identifier
    drawn: the open is refused and no file is touched; the dump stops and
    the file holds what was written; the dump completes and the path is
    returned. *)
Lemma save_outcome (detections : json) w :
  save_detections_json detections w
  = let json_path := json_path_of (uuid4_hex (uuid_draws w)) in
    match open_w (S (uuid_draws w)) json_path with
    | Raise e =>
        (Raise e, {| files := files w;
                     uuid_draws := S (uuid_draws w);
                     requests_made := requests_made w |})
    | Ok _ =>
        ((json_dump detections 2 false).2 ≫= (fun _ => Ok json_path),
         {| files := <[json_path := (json_dump detections 2 false).1]> (files w);
            uuid_draws := S (uuid_draws w);
            requests_made := requests_made w |})
    end.
Proof.
  unfold Ui.save_detections_json, mbind, M_bind, uuid4, open_write, dump_to.
  cbv zeta. cbn [uuid_draws].
  destruct (open_w (S (uuid_draws w)) _) as [[]|e]; [| done].
  destruct (json_dump detections 2 false) as [text [[]|e]];
    unfold put_file; simpl; by rewrite insert_insert_eq.
Qed.

(** ** One interaction *)

Local Ltac stopped := left; simpl; split_and!; first [done | lia].

(** Every run of the callback either stops before the export, with the
    files and the identifiers as they were and no path handed out, or went
    through the request, the status check, the decoding and the drawing and
    ends as the export ends. *)
Lemma predict_gradio_step image w out w' :
  predict_gradio image w = (out, w') ->
  (exported [out] = [] /\ files w' = files w /\ uuid_draws w' = uuid_draws w /\
   (requests_made w <= requests_made w' <= S (requests_made w))%nat) \/
  (exists picture buf resp detections annotated,
     image = Some picture /\
     Image_save picture "PNG" = Ok buf /\
     requests_post (requests_made w) API_URL
       ("image.png"%string, buf, "image/png"%string) = Ok resp /\
     ~ (400 <= status_code resp < 600) /\
     response_json resp = Ok detections /\
     draw_boxes picture detections = Ok annotated /\
     let saved :=
       save_detections_json detections
         {| files := files w;
            uuid_draws := uuid_draws w;
            requests_made := S (requests_made w) |} in
     out = (json_path ← saved.1; Ok (Some annotated, Some json_path)) /\
     w' = saved.2).
Proof.
  destruct image as [picture|]; [| intros [= <- <-]; stopped].
  unfold Ui.predict_gradio. unfold mbind at 1 2 3 4 5 6, M_bind, lift, post.
  destruct (Image_save picture "PNG") as [buf|e] eqn:Hsave;
    [| intros [= <- <-]; stopped].
  destruct (requests_post _ _ _) as [resp|e] eqn:Hpost;
    [| intros [= <- <-]; stopped].
  unfold raise_for_status.
  destruct (decide (400 <= status_code resp < 600)) as [Herr|Hfine];
    [intros [= <- <-]; stopped |].
  destruct (response_json resp) as [detections|e] eqn:Hjson;
    [| intros [= <- <-]; stopped].
  destruct (draw_boxes picture detections) as [annotated|e] eqn:Hdraw;
    [| intros [= <- <-]; stopped].
  intros Hrun. right.
  exists picture, buf, resp, detections, annotated. cbv zeta.
  destruct (Ui.save_detections_json _ _ _ _) as [[json_path|e] w1];
    injection Hrun as <- <-; by split_and!.
Qed.




(** ** The export *)

(** A successful interaction went through every step, and its export wrote
    the whole document. *)
Lemma predict_gradio_exported image w annotated json_path w' :
  predict_gradio image w = (Ok (Some annotated, Some json_path), w') ->
  exists picture buf resp detections text,
    image = Some picture /\
    Image_save picture "PNG" = Ok buf /\
    requests_post (requests_made w) API_URL
      ("image.png"%string, buf, "image/png"%string) = Ok resp /\
    ~ (400 <= status_code resp < 600) /\
    response_json resp = Ok detections /\
    draw_boxes picture detections = Ok annotated /\
    json_dump detections 2 false = (text, Ok tt) /\
    json_path = json_path_of (uuid4_hex (uuid_draws w)) /\
    open_w (S (uuid_draws w)) json_path = Ok tt /\
    w' = exported_world uuid4_hex text w.
Proof.
  intros Hrun.
  apply predict_gradio_step in Hrun as [(Hnone & _) | Hrun]; [discriminate |].
  destruct Hrun as (picture & buf & resp & detections & annotated' &
                    -> & Hsave & Hpost & Hfine & Hjson & Hdraw & Hout & ->).
  rewrite save_outcome in Hout |- *. cbv zeta in Hout |- *.
  cbn [uuid_draws files requests_made] in Hout |- *.
  destruct (open_w (S (uuid_draws w)) _) as [[]|e] eqn:Hopen; [| discriminate].
  destruct (json_dump detections 2 false) as [text [[]|e]] eqn:Hdump;
    [| discriminate].
  simpl in Hout. injection Hout as -> ->.
  by exists picture, buf, resp, detections, text.
Qed.


(** ** A session *)

(** Whatever an interaction does, it keeps the files that were there. *)
Lemma predict_gradio_keeps_files image w out w' :
  predict_gradio image w = (out, w') -> dom (files w) ⊆ dom (files w').
Proof.
  intros Hrun.
  apply predict_gradio_step in Hrun as [(_ & -> & _) | Hrun]; [done |].
  destruct Hrun as (? & ? & ? & detections & ? & _ & _ & _ & _ & _ & _ & _ & ->).
  rewrite save_outcome. cbv zeta. cbn [uuid_draws files requests_made].
  destruct (open_w _ _); simpl; [apply dom_insert_subseteq | done].
Qed.

(** With identifiers that never repeat, an interaction started where no
    coming identifier is in use ends where none is: what it may write, it
    writes under the identifier it drew. *)
Lemma predict_gradio_keeps_unused image w out w' :
  Inj (=) (=) uuid4_hex ->
  predict_gradio image w = (out, w') -> unused_ids w -> unused_ids w'.
Proof.
  intros Hinj Hrun Hw.
  apply predict_gradio_step in Hrun as [(_ & Hfiles & Hdraws & _) | Hrun].
  { intros n Hn. rewrite Hfiles. apply Hw. lia. }
  destruct Hrun as (? & ? & ? & detections & ? & _ & _ & _ & _ & _ & _ & _ & ->).
  rewrite save_outcome. cbv zeta. cbn [uuid_draws files requests_made].
  destruct (open_w _ _); intros n Hn; simpl in *.
  - rewrite lookup_insert_ne; [apply Hw; lia |].
    intros Heq. apply json_path_of_inj, Hinj in Heq. lia.
  - apply Hw. lia.
Qed.

(** X22: over any session with identifiers that never repeat, started where
    no coming identifier is in use, the paths handed out are pairwise
    distinct, none of them named a file that was there at the start, each
    of them names a file at the end, and the directory has grown by at least
    one file for each of them. *)
Lemma session_exports_distinct images : forall w outs w',
  Inj (=) (=) uuid4_hex ->
  unused_ids w ->
  session images w = (outs, w') ->
  NoDup (exported outs) /\
  (forall p, p ∈ exported outs ->
     files w !! p = None /\ is_Some (files w' !! p) /\
     exists n, (uuid_draws w <= n)%nat /\ p = json_path_of (uuid4_hex n)) /\
  unused_ids w' /\
  dom (files w) ⊆ dom (files w') /\
  (size (files w) + length (exported outs) <= size (files w'))%nat.
Proof.
  induction images as [|image images IH]; intros w outs w' Hinj Hw Hrun.
  - injection Hrun as <- <-. simpl.
    split_and!; [constructor | set_solver | done | done | lia].
  - cbn [Ui.session] in Hrun.
    destruct (Ui.predict_gradio _ _ _ image w) as [out w1] eqn:Hstep.
    destruct (Ui.session _ _ _ images w1) as [outs1 w2] eqn:Hrest.
    injection Hrun as <- <-.
    pose proof (predict_gradio_keeps_unused _ _ _ _ Hinj Hstep Hw) as Hw1.
    pose proof (predict_gradio_keeps_files _ _ _ _ Hstep) as Hkeep.
    destruct (IH w1 outs1 w2 Hinj Hw1 Hrest)
      as (Hnd & Hold & Hw2 & Hdom & Hsize).
    rewrite (omap_app _ [out] outs1 : exported (out :: outs1) = exported [out] ++ exported outs1).
    assert (size (files w) <= size (files w1))%nat as Hgrow
      by (rewrite <- !size_dom; by apply subseteq_size).
    destruct out as [[annotated [json_path|]]|e];
      try (simpl; split_and!; [done | | done | by etrans | lia];
           intros p Hp; destruct (Hold p Hp) as (Hnew & Hthere & n & Hn & ->);
           assert (uuid_draws w <= uuid_draws w1)%nat as Hdraws
             by (apply predict_gradio_step in Hstep
                   as [(_ & _ & -> & _)
                      | (? & ? & ? & ? & ? & _ & _ & _ & _ & _ & _ & _ & ->)];
                 [lia | rewrite save_outcome; cbv zeta; simpl;
                        destruct (open_w _ _); simpl; lia]);
           split_and!; [| done | exists n; split; [lia | done]];
           destruct (files w !! json_path_of (uuid4_hex n)) eqn:Hlook; [| done];
           assert (json_path_of (uuid4_hex n) ∈ dom (files w1)) as Hin
             by (apply Hkeep, elem_of_dom; eauto);
           apply elem_of_dom in Hin as [? Hin]; congruence).
    destruct annotated as [annotated|].
    2:{ exfalso. apply predict_gradio_step in Hstep
          as [(? & _) | (? & ? & ? & ? & ? & _ & _ & _ & _ & _ & _ & Hout & _)];
          [discriminate |].
        cbv zeta in Hout. destruct (Ui.save_detections_json _ _ _ _).1; discriminate. }
    apply predict_gradio_exported in Hstep
      as (? & ? & ? & ? & text & _ & _ & _ & _ & _ & _ & _ & -> & _ & ->).
    assert (files w !! json_path_of (uuid4_hex (uuid_draws w)) = None) as Hnew
      by (by apply Hw).
    simpl in *. split_and!; [| | done | by etrans |].
    + constructor; [| done]. intros Hin.
      apply Hold in Hin as [Hin _]. by rewrite lookup_insert_eq in Hin.
    + intros p [-> | Hp]%elem_of_cons.
      * split_and!; [done | | eauto].
        apply elem_of_dom, Hdom, elem_of_dom. rewrite lookup_insert_eq. eauto.
      * apply Hold in Hp as (Hp & Hthere & n & Hn & ->).
        split_and!; [apply Hw; lia | done | exists n; split; [lia | done]].
    + rewrite map_size_insert_None in Hsize by done. lia.
Qed.
(** One interaction sends at most one request, draws at most one identifier,
    and has drawn one when it hands out a path. *)
Lemma predict_gradio_counts image w out w' :
  predict_gradio image w = (out, w') ->
  (uuid_draws w + length (exported [out]) <= uuid_draws w'
   <= S (uuid_draws w))%nat /\
  (requests_made w <= requests_made w' <= S (requests_made w))%nat /\
  (uuid_draws w' - uuid_draws w <= requests_made w' - requests_made w)%nat.
Proof.
  intros Hrun.
  apply predict_gradio_step in Hrun as [(-> & _ & -> & Hreq) | Hrun];
    [simpl; lia |].
  destruct Hrun as (? & ? & ? & detections & ? & _ & _ & _ & _ & _ & _ & -> & ->).
  rewrite save_outcome. cbv zeta. cbn [uuid_draws files requests_made].
  destruct (open_w _ _); [| simpl; lia].
  destruct (json_dump detections 2 false).2; simpl; lia.
Qed.
End Callback.

(** ** Client and service together *)

Section EndToEnd.
Context {PIL : Pillow} {Py : Python} {Json : JsonLib} {ndarray : Type}.
Variable np_array : Image -> ndarray.
Variable YOLO : string -> string -> Detector.Model (ndarray := ndarray).
Variable uuid4_hex : nat -> string.
Variable requests_post :
  nat -> string -> string * list Byte.byte * string -> result HttpResponse.
Variable open_w : nat -> string -> result unit.

End EndToEnd.

(** ** On the sample servers *)

Lemma sample_ids_distinct : Inj (=) (=) Sample.uuid4_hex.
Proof. intros a b Heq. by apply (inj (pretty : nat -> string)). Qed.

Lemma sample_dir_unused : unused_ids Sample.uuid4_hex Sample.empty_dir.
Proof. intros n _. apply lookup_empty. Qed.




(** The file of the first interaction, read back, is what the server sent. *)
Example sample_file_reads_back :
  load_json (Json := Sample.jsonlib) "ui_outputs/detections_0.json" Sample.after_one
  = Ok Sample.one_person_json.
Proof. vm_compute. reflexivity. Qed.


End UiSpec.

(** * More on detector.py *)

Module DetectorMore.
Import Detector.

Section Loop.
Variable names : gmap Z string.
Variables image_width image_height : Z.

Local Abbreviation body := (build_detection names image_width image_height).
Local Abbreviation loop := (build_loop names image_width image_height).

Lemma body_ok box cls_id score :
  is_ok (body box cls_id score) = true <-> well_formed box cls_id.
Proof.
  unfold build_detection, well_formed.
  destruct box as [|a [|b [|c [|d [|? ?]]]]]; simpl;
    try (split; [discriminate | intros [? _]; discriminate]).
  destruct (py_int cls_id); simpl; split; try done. by intros [_ ?].
Qed.

Lemma body_raises box cls_id score e :
  body box cls_id score = Raise e -> e = ValueError \/ e = OverflowError.
Proof.
  unfold build_detection.
  destruct box as [|a [|b [|c [|d [|? ?]]]]]; try (intros [= <-]; by left).
  unfold py_int. destruct (Prim2SF cls_id); simpl; try discriminate.
  - intros [= <-]. by right.
  - intros [= <-]. by left.
Qed.

Lemma loop_ok_iff boxes : forall cls_ids scores acc,
  is_ok (loop boxes cls_ids scores acc) = true <->
  forall i box cls_id,
    (i < length scores)%nat -> boxes !! i = Some box ->
    cls_ids !! i = Some cls_id -> well_formed box cls_id.
Proof.
  induction boxes as [|box boxes IH]; intros cls_ids scores acc.
  - simpl. split; [| done]. intros _ i b c _ Hb. by rewrite lookup_nil in Hb.
  - destruct cls_ids as [|c cls_ids].
    { simpl. split; [| done]. intros _ i b c' _ _ Hc. by rewrite lookup_nil in Hc. }
    destruct scores as [|s scores].
    { simpl. split; [| done]. intros _ i b c' Hi. simpl in Hi. lia. }
    simpl. destruct (body box c s) as [d|e] eqn:Hbody; simpl.
    + rewrite IH. split.
      * intros Hrest [|i] b c' Hi Hb Hc; simpl in *.
        -- injection Hb as <-. injection Hc as <-.
           apply (body_ok _ _ s). by rewrite Hbody.
        -- apply (Hrest i); [lia | done..].
      * intros Hall i b c' Hi Hb Hc. apply (Hall (S i)); simpl; [lia | done..].
    + split; [discriminate |]. intros Hall.
      assert (well_formed box c) as Hwf by (apply (Hall 0%nat); simpl; [lia | done..]).
      apply (body_ok _ _ s) in Hwf. by rewrite Hbody in Hwf.
Qed.

Lemma loop_first_failure boxes : forall cls_ids scores acc e,
  loop boxes cls_ids scores acc = Raise e ->
  exists i box cls_id score,
    boxes !! i = Some box /\ cls_ids !! i = Some cls_id /\
    scores !! i = Some score /\ body box cls_id score = Raise e /\
    forall j box' cls_id', (j < i)%nat -> boxes !! j = Some box' ->
      cls_ids !! j = Some cls_id' -> well_formed box' cls_id'.
Proof.
  induction boxes as [|box boxes IH]; intros cls_ids scores acc e Hloop.
  - discriminate.
  - destruct cls_ids as [|c cls_ids], scores as [|s scores]; try discriminate.
    simpl in Hloop. destruct (body box c s) as [d|e'] eqn:Hbody; simpl in Hloop.
    + apply IH in Hloop as (i & b & c' & s' & Hb & Hc & Hs & He & Hbefore).
      exists (S i), b, c', s'. split_and!; try done.
      intros [|j] b' c'' Hj Hb' Hc'; simpl in *.
      * injection Hb' as <-. injection Hc' as <-.
        apply (body_ok _ _ s). by rewrite Hbody.
      * apply (Hbefore j); [lia | done..].
    + injection Hloop as <-. exists 0%nat, box, c, s. split_and!; try done.
      intros j ? ? Hj. lia.
Qed.

Lemma loop_surplus boxes : forall cls_ids scores acc,
  let n := Nat.min (Nat.min (length boxes) (length cls_ids)) (length scores) in
  loop boxes cls_ids scores acc
  = loop (take n boxes) (take n cls_ids) (take n scores) acc.
Proof.
  induction boxes as [|box boxes IH]; intros cls_ids scores acc; cbv zeta;
    [done |].
  destruct cls_ids as [|c cls_ids]; [done |].
  destruct scores as [|s scores]; [by rewrite Nat.min_0_r |].
  simpl. destruct (body box c s); simpl; [apply IH | done].
Qed.

Lemma loop_acc boxes : forall cls_ids scores acc,
  loop boxes cls_ids scores acc
  = (new ← loop boxes cls_ids scores []; Ok (acc ++ new)).
Proof.
  induction boxes as [|box boxes IH]; intros cls_ids scores acc.
  - simpl. by rewrite app_nil_r.
  - destruct cls_ids as [|c cls_ids], scores as [|s scores];
      try (simpl; by rewrite app_nil_r).
    simpl. destruct (body box c s) as [d|e]; simpl; [| done].
    rewrite (IH _ _ (acc ++ [d])), (IH _ _ [d]).
    destruct (loop boxes cls_ids scores []) as [new|e]; simpl; [| done].
    by rewrite <- app_assoc.
Qed.

Lemma loop_app boxes1 : forall cls_ids1 scores1 boxes2 cls_ids2 scores2 acc,
  length boxes1 = length cls_ids1 -> length cls_ids1 = length scores1 ->
  loop (boxes1 ++ boxes2) (cls_ids1 ++ cls_ids2) (scores1 ++ scores2) acc
  = (mid ← loop boxes1 cls_ids1 scores1 acc; loop boxes2 cls_ids2 scores2 mid).
Proof.
  induction boxes1 as [|box boxes1 IH];
    intros [|c cls_ids1] [|s scores1] boxes2 cls_ids2 scores2 acc Hbc Hcs;
    try discriminate; [done |].
  simpl. destruct (body box c s) as [d|e]; simpl; [| done].
  apply IH; simpl in *; lia.
Qed.
End Loop.

(** ** What [_build_detections_dict] returns and when it raises *)

(** X1: the call returns exactly when, at every position the three arrays
    share, the row has four coordinates and the class id is a number [int]
    accepts; rows and class ids past the shortest array do not matter. *)
Theorem build_returns_iff boxes cls_ids scores names w h :
  is_ok (_build_detections_dict boxes cls_ids scores names w h) = true <->
  forall i box cls_id,
    (i < length scores)%nat -> boxes !! i = Some box ->
    cls_ids !! i = Some cls_id -> well_formed box cls_id.
Proof.
  rewrite <- (loop_ok_iff names w h boxes cls_ids scores []).
  unfold _build_detections_dict.
  by destruct (build_loop names w h boxes cls_ids scores []).
Qed.

(** X2: when the call raises, the exception is [ValueError] or
    [OverflowError], it is the one the loop body raises at the first
    position that is not well formed, and every position before it is. *)
Theorem build_first_failure boxes cls_ids scores names w h e :
  _build_detections_dict boxes cls_ids scores names w h = Raise e ->
  (e = ValueError \/ e = OverflowError) /\
  exists i box cls_id score,
    boxes !! i = Some box /\ cls_ids !! i = Some cls_id /\
    scores !! i = Some score /\
    build_detection names w h box cls_id score = Raise e /\
    forall j box' cls_id', (j < i)%nat -> boxes !! j = Some box' ->
      cls_ids !! j = Some cls_id' -> well_formed box' cls_id'.
Proof.
  unfold _build_detections_dict. intros Hr.
  destruct (build_loop names w h boxes cls_ids scores []) as [ds|e'] eqn:Hloop;
    [discriminate |].
  injection Hr as ->.
  apply loop_first_failure in Hloop as (i & box & c & s & Hb & Hc & Hs & He & Hj).
  split; [by eapply body_raises |].
  by exists i, box, c, s.
Qed.

Lemma build_first_failure_witness :
  (OverflowError = ValueError \/ OverflowError = OverflowError) /\
  exists i box cls_id score,
    [[0; 0; 1; 1]%float; [0; 0; 2; 2]%float; [0; 0]%float] !! i = Some box /\
    [1%float; infinity; nan] !! i = Some cls_id /\
    [0.5%float; 0.5%float; 0.5%float] !! i = Some score /\
    build_detection ∅ 10 10 box cls_id score = Raise OverflowError /\
    forall j box' cls_id', (j < i)%nat ->
      [[0; 0; 1; 1]%float; [0; 0; 2; 2]%float; [0; 0]%float] !! j = Some box' ->
      [1%float; infinity; nan] !! j = Some cls_id' -> well_formed box' cls_id'.
Proof.
  apply (build_first_failure
           [[0; 0; 1; 1]%float; [0; 0; 2; 2]%float; [0; 0]%float]
           [1%float; infinity; nan] [0.5%float; 0.5%float; 0.5%float] ∅ 10 10).
  vm_compute. reflexivity.
Defined.

(** X3: [zip] stops at the shortest array: the call gives the same outcome
    as on the three arrays cut to their common length, so nothing past it is
    read, not even to fail on. *)
Theorem build_ignores_surplus boxes cls_ids scores names w h :
  let n := Nat.min (Nat.min (length boxes) (length cls_ids)) (length scores) in
  _build_detections_dict boxes cls_ids scores names w h
  = _build_detections_dict (take n boxes) (take n cls_ids) (take n scores)
      names w h.
Proof.
  cbv zeta. unfold _build_detections_dict.
  by rewrite (loop_surplus names w h boxes cls_ids scores []).
Qed.

(** X4: normalizing two model outputs laid end to end gives the detections
    of the first followed by those of the second, and the counts add up. *)
Theorem build_concat boxes1 cls_ids1 scores1 boxes2 cls_ids2 scores2
    names w h r1 r2 :
  length boxes1 = length cls_ids1 -> length cls_ids1 = length scores1 ->
  _build_detections_dict boxes1 cls_ids1 scores1 names w h = Ok r1 ->
  _build_detections_dict boxes2 cls_ids2 scores2 names w h = Ok r2 ->
  _build_detections_dict (boxes1 ++ boxes2) (cls_ids1 ++ cls_ids2)
    (scores1 ++ scores2) names w h
  = Ok {| image_width := w;
          image_height := h;
          num_detections := num_detections r1 + num_detections r2;
          detections := detections r1 ++ detections r2 |}.
Proof.
  intros Hbc Hcs H1 H2.
  apply DetectorSpec.build_Ok in H1 as (ds1 & Hloop1 & ->).
  apply DetectorSpec.build_Ok in H2 as (ds2 & Hloop2 & ->).
  unfold _build_detections_dict.
  rewrite loop_app, Hloop1 by done. simpl.
  rewrite loop_acc, Hloop2. simpl.
  by rewrite length_app, Nat2Z.inj_add.
Qed.

Lemma build_concat_witness :
  _build_detections_dict
    ([[10; 20; 110; 220]%float] ++ [[10; 20; 110; 220]%float])
    ([0%float] ++ [7.5%float]) ([0.5%float] ++ [0.5%float])
    {[ 0 := "person"%string ]} 640 480
  = Ok {| image_width := 640;
          image_height := 480;
          num_detections := 1 + 1;
          detections := [Sample.person] ++ [Sample.unnamed_class] |}.
Proof.
  apply (build_concat [[10; 20; 110; 220]%float] [0%float] [0.5%float]
           [[10; 20; 110; 220]%float] [7.5%float] [0.5%float]
           {[ 0 := "person"%string ]} 640 480
           Sample.one_person_result
           {| image_width := 640; image_height := 480;
              num_detections := 1; detections := [Sample.unnamed_class] |});
    first [reflexivity | vm_compute; reflexivity].
Defined.

(** X5: when the model found nothing, or one of the three arrays is empty
    for any other reason, the result is the image size with a zero count and
    no detections: no row is read and nothing can raise. *)
Theorem build_empty_input boxes cls_ids scores names w h :
  boxes = [] \/ cls_ids = [] \/ scores = [] ->
  _build_detections_dict boxes cls_ids scores names w h
  = Ok {| image_width := w; image_height := h;
          num_detections := 0; detections := [] |}.
Proof.
  intros [-> | [-> | ->]]; [done | by destruct boxes |].
  by destruct boxes as [|? ?], cls_ids as [|? ?].
Qed.

Lemma build_empty_input_witness :
  _build_detections_dict [[0; 0]%float] [nan] [] ∅ 640 480
  = Ok {| image_width := 640; image_height := 480;
          num_detections := 0; detections := [] |}.
Proof.
  apply (build_empty_input [[0; 0]%float] [nan] [] ∅ 640 480).
  right. right. reflexivity.
Defined.

(** ** The public method on a present image *)

Section Predict.
Context {PIL : Pillow} {ndarray : Type}.
Variable np_array : Image -> ndarray.

(** X6: whatever the image and whatever the outcome, one call of [predict]
    calls the model at most once, with the detector's own threshold, and
    leaves the earlier calls in the log. *)
Theorem predict_logs_at_most_one_call (self : YoloObjectDetector)
    (image : option Image) (w : World) :
  let w' := (predict np_array self image w).2 in
  inferences w' = inferences w \/
  exists img_np, inferences w' = (img_np, conf_threshold self) :: inferences w.
Proof.
  cbv zeta. destruct image as [image|]; [| by left].
  unfold predict, mbind, M_bind, lift, _run_inference, mbind, M_bind, call_model.
  destruct (Image_convert image "RGB") as [rgb|e]; [| by left].
  right. exists (np_array rgb).
  destruct (model self (np_array rgb) (conf_threshold self)) as [[|raw rest]|e];
    simpl; try done.
  by destruct (Image_size rgb).
Qed.

(** X7: a call that returns on a present image converted it to RGB, called
    the model once on the pixel array of the converted image, and normalized
    the first result of the batch only: the width and height are the size of
    the converted image and there is one detection per position the three
    arrays of that result share. *)
Theorem predict_present_result (self : YoloObjectDetector) image w r w' :
  predict np_array self (Some image) w = (Ok r, w') ->
  exists rgb raw rest,
    Image_convert image "RGB" = Ok rgb /\
    model self (np_array rgb) (conf_threshold self) = Ok (raw :: rest) /\
    image_width r = (Image_size rgb).1 /\
    image_height r = (Image_size rgb).2 /\
    length (detections r)
    = Nat.min (Nat.min (length (xyxy raw)) (length (cls raw))) (length (conf raw)) /\
    inferences w' = (np_array rgb, conf_threshold self) :: inferences w.
Proof.
  intros Hp.
  apply DetectorSpec.predict_present_Ok in Hp
    as (rgb & raw & rest & Hconv & Hmodel & Hbuild & Hlog).
  exists rgb, raw, rest. split_and!; try done.
  - by apply DetectorSpec.build_Ok in Hbuild as (ds & _ & ->).
  - by apply DetectorSpec.build_Ok in Hbuild as (ds & _ & ->).
  - apply DetectorSpec.build_Ok in Hbuild as (ds & Hloop & ->). simpl.
    by apply DetectorSpec.loop_positions in Hloop as (new & -> & Hlen & _).
Qed.

(** X8: when the conversion to RGB raises, [predict] raises the same
    exception and the model has not been called. *)
Theorem predict_conversion_failure (self : YoloObjectDetector) image w e :
  Image_convert image "RGB" = Raise e ->
  predict np_array self (Some image) w = (Raise e, w).
Proof.
  intros Hconv. unfold predict, mbind, M_bind, lift. by rewrite Hconv.
Qed.

(** X9: when the model raises, [predict] raises the same exception; when it
    answers with an empty batch, taking the first result raises
    [IndexError]. Either way the call of the model is in the log and no
    result is built. *)
Theorem predict_no_first_result (self : YoloObjectDetector) image w rgb :
  Image_convert image "RGB" = Ok rgb ->
  let answer := model self (np_array rgb) (conf_threshold self) in
  (forall raw rest, answer <> Ok (raw :: rest)) ->
  predict np_array self (Some image) w
  = (Raise (match answer with Raise e => e | Ok _ => IndexError end),
     {| inferences := (np_array rgb, conf_threshold self) :: inferences w |}).
Proof.
  intros Hconv answer Hnone. subst answer.
  unfold predict, mbind, M_bind, lift, _run_inference, mbind, M_bind, call_model.
  rewrite Hconv.
  destruct (model self (np_array rgb) (conf_threshold self)) as [[|raw rest]|e];
    [done | by destruct (Hnone raw rest) | done].
Qed.
End Predict.

Lemma predict_present_result_witness :
  exists rgb raw rest,
    Image_convert (Pillow := Sample.pillow) Sample.blank "RGB" = Ok rgb /\
    model Sample.one_person_detector (Sample.pixels rgb)
      (conf_threshold Sample.one_person_detector) = Ok (raw :: rest) /\
    image_width Sample.one_person_result = (Sample.picture_size rgb).1 /\
    image_height Sample.one_person_result = (Sample.picture_size rgb).2 /\
    length (detections Sample.one_person_result)
    = Nat.min (Nat.min (length (xyxy raw)) (length (cls raw))) (length (conf raw)) /\
    inferences {| inferences := [(Sample.blank, 0.25%float)] |}
    = (Sample.pixels rgb, conf_threshold Sample.one_person_detector)
        :: inferences Sample.start.
Proof.
  apply (predict_present_result (PIL := Sample.pillow) Sample.pixels
           Sample.one_person_detector Sample.blank Sample.start
           Sample.one_person_result
           {| inferences := [(Sample.blank, 0.25%float)] |}).
  vm_compute. reflexivity.
Defined.

Lemma predict_conversion_failure_witness :
  predict (PIL := Sample.truncated_pillow) Sample.pixels
    Sample.one_person_detector (Some Sample.blank) Sample.start
  = (Raise OSError, Sample.start).
Proof.
  apply (predict_conversion_failure (PIL := Sample.truncated_pillow)
           Sample.pixels Sample.one_person_detector Sample.blank Sample.start
           OSError).
  reflexivity.
Defined.

Lemma predict_no_first_result_witness :
  predict (PIL := Sample.pillow) Sample.pixels Sample.silent_detector
    (Some Sample.blank) Sample.start
  = (Raise IndexError, {| inferences := [(Sample.blank, 0.25%float)] |}).
Proof.
  apply (predict_no_first_result (PIL := Sample.pillow) Sample.pixels
           Sample.silent_detector Sample.blank Sample.start Sample.blank).
  - reflexivity.
  - intros raw rest. discriminate.
Defined.

End DetectorMore.


(** * More on app/main.py *)

Module AppMore.
Import App.

Section Routes.
Context {PIL : Pillow} {ndarray : Type}.
Variable np_array : Image -> ndarray.
Variable YOLO : string -> string -> Detector.Model (ndarray := ndarray).

(** X10: a 200 answer of [POST /predict] is the JSON of a detection result:
    the upload was opened and converted to RGB, the detector converted it
    once more and ran the model once on it with threshold 0.25, the width
    and height are those of that image, the count is the number of
    detections, and no number in the body is a NaN or an infinity. *)
Theorem predict_route_ok_answer (file : list Byte.byte) w resp w' :
  handle np_array YOLO (POST_predict file) w = (resp, w') ->
  status_code resp = 200 ->
  exists opened rgb rgb' r,
    Image_open file = Ok opened /\
    Image_convert opened "RGB" = Ok rgb /\
    Image_convert rgb "RGB" = Ok rgb' /\
    resp = {| status_code := 200;
              body := JsonBody (Detector.result_to_json r) |} /\
    Detector.image_width r = (Image_size rgb').1 /\
    Detector.image_height r = (Image_size rgb').2 /\
    Detector.num_detections r = Z.of_nat (length (Detector.detections r)) /\
    json_compliant (Detector.result_to_json r) = true /\
    Detector.inferences w' = (np_array rgb', 0.25%float) :: Detector.inferences w.
Proof.
  unfold handle, respond. intros Hrun Hstatus.
  destruct (predict np_array YOLO file w) as [[response|e] w1] eqn:Hp;
    injection Hrun as <- <-; [| discriminate].
  unfold predict in Hp.
  apply M_bind_Ok in Hp as (rgb & w0 & Hdecode & Hp).
  apply lift_Ok in Hdecode as [Hdecode ->].
  apply bind_Ok in Hdecode as (opened & Hopen & Hconv).
  apply M_bind_Ok in Hp as (r & w2 & Hpredict & Hp).
  apply lift_Ok in Hp as [Hp ->].
  apply DetectorSpec.predict_present_Ok in Hpredict
    as (rgb' & raw & rest & Hconv' & _ & Hbuild & Hlog).
  unfold JSONResponse in Hp.
  destruct (json_compliant (Detector.result_to_json r)) eqn:Hfinite;
    [| discriminate].
  injection Hp as <-.
  exists opened, rgb, rgb', r. split_and!; try done.
  - by apply DetectorSpec.build_Ok in Hbuild as (ds & _ & ->).
  - by apply DetectorSpec.build_Ok in Hbuild as (ds & _ & ->).
  - by apply DetectorSpec.build_Ok in Hbuild as (ds & _ & ->).
Qed.

(** X11: no request costs more than one call of the model. [GET /health]
    and a [POST /predict] without the file field make none; a
    [POST /predict] whose upload opens and converts to RGB, at the route
    and once more in the detector, makes exactly one, on that image and
    with the threshold 0.25 the detector was created with, whatever the
    model then answers; an upload that does not decode makes none. Earlier
    calls stay in the log. *)
Theorem request_runs_model_at_most_once (request : Request) w :
  let w' := (handle np_array YOLO request w).2 in
  match request with
  | GET_health | POST_predict_without_file =>
      Detector.inferences w' = Detector.inferences w
  | POST_predict file =>
      match opened ← Image_open file;
            rgb ← Image_convert opened "RGB";
            Image_convert rgb "RGB" with
      | Ok rgb' =>
          Detector.inferences w'
          = (np_array rgb', 0.25%float) :: Detector.inferences w
      | Raise _ => Detector.inferences w' = Detector.inferences w
      end
  end.
Proof.
  cbv zeta. destruct request as [|file|]; [done | | done].
  unfold handle, respond, predict, lift. unfold mbind at 1 2, M_bind.
  destruct (Image_open file) as [opened|e]; [| done]. simpl.
  destruct (Image_convert opened "RGB") as [rgb|e]; [| done]. simpl.
  unfold Detector.predict, mbind, M_bind, lift, Detector._run_inference,
    mbind, M_bind, Detector.call_model.
  destruct (Image_convert rgb "RGB") as [rgb'|e]; [| done].
  simpl.
  destruct (Detector._load_model YOLO _ _ _ _) as [[|raw rest]|e]; simpl;
    try done.
  destruct (Image_size rgb').
  destruct (Detector._build_detections_dict _ _ _ _ _ _); simpl; [| done].
  by destruct (JSONResponse _).
Qed.
End Routes.

Lemma predict_route_ok_answer_witness :
  exists opened rgb rgb' r,
    Image_open (Pillow := Sample.pillow) Sample.png_signature = Ok opened /\
    Image_convert (Pillow := Sample.pillow) opened "RGB" = Ok rgb /\
    Image_convert (Pillow := Sample.pillow) rgb "RGB" = Ok rgb' /\
    {| status_code := 200; body := JsonBody Sample.one_person_json |}
    = {| status_code := 200;
         body := JsonBody (Detector.result_to_json r) |} /\
    Detector.image_width r = (Sample.picture_size rgb').1 /\
    Detector.image_height r = (Sample.picture_size rgb').2 /\
    Detector.num_detections r = Z.of_nat (length (Detector.detections r)) /\
    json_compliant (Detector.result_to_json r) = true /\
    Detector.inferences {| Detector.inferences := [(Sample.blank, 0.25%float)] |}
    = (Sample.pixels rgb', 0.25%float) :: Detector.inferences Sample.start.
Proof.
  apply (predict_route_ok_answer (PIL := Sample.pillow) Sample.pixels Sample.yolo
           Sample.png_signature Sample.start
           {| status_code := 200; body := JsonBody Sample.one_person_json |}
           {| Detector.inferences := [(Sample.blank, 0.25%float)] |}).
  - vm_compute. reflexivity.
  - reflexivity.
Defined.

End AppMore.

(** * More on ui/app.py *)

Module UiMore.
Import Ui.

(** X12: the path of an export determines its identifier: two exports have
    the same path only when they were given the same identifier. *)
Theorem json_path_of_same_iff (file_id file_id' : string) :
  json_path_of file_id = json_path_of file_id' <-> file_id = file_id'.
Proof.
  split; [| by intros ->]. apply UiSpec.json_path_of_inj.
Qed.

Section Drawing.
Context {PIL : Pillow} {Py : Python}.

(** The font [draw_boxes] ends up with. *)
Local Abbreviation default_font :=
  (match ImageFont_load_default with Ok font => Some font | Raise _ => None end).

(** X13: on the dictionary the detector builds, [draw_boxes] finds the
    [detections] key, iterates its list, and draws the records one after
    the other in the detector's order on a copy of the image. *)
Theorem draw_boxes_on_result (image : Image) (r : Detector.DetectionResult) :
  draw_boxes image (Detector.result_to_json r)
  = draw_loop default_font (Image_copy image)
      (Detector.detection_to_json <$> Detector.detections r).
Proof. reflexivity. Qed.

(** X14: on a record the detector builds, none of the seven lookups of the
    loop body raises: the box is drawn at the record's own corners and the
    label is made of its class name and confidence. *)
Theorem draw_detection_on_record font (annotated : Image)
    (d : Detector.Detection) :
  draw_detection font annotated (Detector.detection_to_json d)
  = draw_record font annotated
      (JFloat (Detector.x1 (Detector.bbox d)))
      (JFloat (Detector.y1 (Detector.bbox d)))
      (JFloat (Detector.x2 (Detector.bbox d)))
      (JFloat (Detector.y2 (Detector.bbox d)))
      (JStr (Detector.class_name d))
      (JFloat (Detector.confidence d)).
Proof. reflexivity. Qed.

(** X15: the detections are drawn in list order, each on the image the
    previous ones left; the first that fails ends the drawing. *)
Theorem draw_loop_app font (annotated : Image) (dets1 dets2 : list json) :
  draw_loop font annotated (dets1 ++ dets2)
  = (annotated' ← draw_loop font annotated dets1;
     draw_loop font annotated' dets2).
Proof.
  revert annotated. induction dets1 as [|det dets1 IH]; intros annotated;
    [done |].
  simpl. destruct (draw_detection font annotated det); simpl; [apply IH | done].
Qed.

(** X16: a response object without a [detections] key, or with an empty
    list under it, is drawn as an unmarked copy of the image. *)
Theorem draw_boxes_without_detections (image : Image) items :
  assoc_get "detections" items = None \/
  assoc_get "detections" items = Some (JList []) ->
  draw_boxes image (JDict items) = Ok (Image_copy image).
Proof.
  intros Hkey. unfold draw_boxes, json_get. by destruct Hkey as [-> | ->].
Qed.

(** X17: a decoded response that is not an object has no [get]:
    [draw_boxes] raises [AttributeError] and draws nothing. *)
Theorem draw_boxes_not_an_object (image : Image) (detections : json) :
  (forall items, detections <> JDict items) ->
  draw_boxes image detections = Raise AttributeError.
Proof.
  intros Hnot. destruct detections; try done. by destruct (Hnot items).
Qed.

(** X18: when the first detection is an object with no [bbox] key,
    [draw_boxes] raises [KeyError] for that key before anything is drawn. *)
Theorem draw_boxes_missing_bbox (image : Image) items det rest :
  assoc_get "detections" items = Some (JList (JDict det :: rest)) ->
  assoc_get "bbox" det = None ->
  draw_boxes image (JDict items) = Raise (KeyError "bbox").
Proof.
  intros Hdets Hbbox. unfold draw_boxes, json_get. rewrite Hdets. simpl.
  unfold draw_detection, json_getitem. by rewrite Hbbox.
Qed.
End Drawing.

Lemma draw_boxes_without_detections_witness :
  draw_boxes (PIL := Sample.pillow) (Py := Sample.python) Sample.blank
    (JDict [("image_width", JInt 0)]%string)
  = Ok Sample.blank.
Proof.
  apply (draw_boxes_without_detections (PIL := Sample.pillow)
           (Py := Sample.python) Sample.blank [("image_width", JInt 0)]%string).
  left. reflexivity.
Defined.

Lemma draw_boxes_not_an_object_witness :
  draw_boxes (PIL := Sample.pillow) (Py := Sample.python) Sample.blank
    (JList [Detector.detection_to_json Sample.person])
  = Raise AttributeError.
Proof.
  apply (draw_boxes_not_an_object (PIL := Sample.pillow) (Py := Sample.python)).
  intros items. discriminate.
Defined.

Lemma draw_boxes_missing_bbox_witness :
  draw_boxes (PIL := Sample.pillow) (Py := Sample.python) Sample.blank
    (JDict [("detections", JList [JDict [("class_name", JStr "person")]])]%string)
  = Raise (KeyError "bbox").
Proof.
  apply (draw_boxes_missing_bbox (PIL := Sample.pillow) (Py := Sample.python)
           Sample.blank
           [("detections", JList [JDict [("class_name", JStr "person")]])]%string
           [("class_name", JStr "person")]%string []);
    reflexivity.
Defined.

Section Callback.
Context {PIL : Pillow} {Py : Python} {Json : JsonLib}.
Variable uuid4_hex : nat -> string.
Variable requests_post :
  nat -> string -> string * list Byte.byte * string -> result HttpResponse.
Variable open_w : nat -> string -> result unit.

Local Abbreviation predict_gradio :=
  (predict_gradio uuid4_hex requests_post open_w).
Local Abbreviation session := (session uuid4_hex requests_post open_w).


(** X20: the callback sends exactly one request when it is given an image
    that can be encoded as PNG, and none otherwise: no image, no call. *)
Theorem predict_gradio_requests (image : option Image) w :
  requests_made (predict_gradio image w).2
  = match image with
    | Some picture =>
        if is_ok (Image_save picture "PNG") then S (requests_made w)
        else requests_made w
    | None => requests_made w
    end.
Proof.
  destruct image as [picture|]; [| done].
  unfold Ui.predict_gradio. unfold mbind at 1 2 3 4 5 6, M_bind, lift, post.
  destruct (Image_save picture "PNG") as [buf|e]; simpl; [| done].
  destruct (requests_post _ _ _) as [resp|e]; [| done].
  destruct (raise_for_status resp); [| done].
  destruct (response_json resp) as [detections|e]; [| done].
  destruct (draw_boxes picture detections); [| done].
  rewrite UiSpec.save_outcome. cbv zeta. cbn [uuid_draws files requests_made].
  destruct (open_w _ _); [| done].
  by destruct (json_dump detections 2 false).2.
Qed.


(** X23: over any session, with no assumption on the identifiers, no file
    that was in the directory is removed; at most one identifier is drawn
    and at most one request sent per interaction, at least one identifier is
    drawn per path handed out, no identifier is drawn without a request,
    and every interaction has an outcome. *)
Theorem session_never_deletes (images : list (option Image)) : forall w,
  let run := session images w in
  dom (files w) ⊆ dom (files run.2) /\
  (uuid_draws w + length (exported run.1) <= uuid_draws run.2
   <= uuid_draws w + length images)%nat /\
  (requests_made w <= requests_made run.2 <= requests_made w + length images)%nat /\
  (uuid_draws run.2 - uuid_draws w <= requests_made run.2 - requests_made w)%nat /\
  length run.1 = length images.
Proof.
  cbv zeta. induction images as [|image images IH]; intros w.
  - simpl. split_and!; [done | lia.. | done].
  - cbn [Ui.session].
    destruct (Ui.predict_gradio _ _ _ image w) as [out w1] eqn:Hstep.
    specialize (IH w1).
    destruct (Ui.session _ _ _ images w1) as [outs w2].
    cbn [fst snd] in *.
    destruct IH as (Hdom & Hids & Hreq & Hboth & Hlen).
    rewrite (omap_app _ [out] outs : exported (out :: outs) = exported [out] ++ exported outs).
    pose proof (UiSpec.predict_gradio_keeps_files _ _ _ _ _ _ _ Hstep) as Hkeep.
    apply UiSpec.predict_gradio_counts in Hstep as (Hids1 & Hreq1 & Hboth1).
    rewrite length_app. cbn [length].
    split_and!; [by etrans | lia.. | by rewrite Hlen].
Qed.

End Callback.

(** ** On the sample servers *)


(** A directory that refuses the file: the interaction raises after the
    drawing, one identifier is gone, and there is no file. *)
Example refused_open_leaves_no_file :
  Ui.predict_gradio (PIL := Sample.pillow) (Py := Sample.python)
    (Json := Sample.jsonlib) Sample.uuid4_hex Sample.steady_server
    Sample.open_denied (Some Sample.blank) Sample.empty_dir
  = (Raise OSError,
     {| files := ∅; uuid_draws := 1; requests_made := 1 |}).
Proof. vm_compute. reflexivity. Qed.


(** Three interactions on the steady server, the second without an image:
    two files, under two different names. *)
Example steady_session_exports :
  exported
    (Ui.session (PIL := Sample.pillow) (Py := Sample.python)
       (Json := Sample.jsonlib) Sample.uuid4_hex Sample.steady_server
       Sample.open_ok [Some Sample.blank; None; Some Sample.blank]
       Sample.empty_dir).1
  = ["ui_outputs/detections_0.json"; "ui_outputs/detections_1.json"]%string.
Proof. vm_compute. reflexivity. Qed.

Lemma session_exports_distinct_witness :
  let run :=
    Ui.session (PIL := Sample.pillow) (Py := Sample.python)
      (Json := Sample.jsonlib) Sample.uuid4_hex Sample.steady_server
      Sample.open_ok [Some Sample.blank; None; Some Sample.blank]
      Sample.empty_dir in
  NoDup (exported run.1) /\
  (forall p, p ∈ exported run.1 ->
     files Sample.empty_dir !! p = None /\ is_Some (files run.2 !! p) /\
     exists n, (uuid_draws Sample.empty_dir <= n)%nat /\
               p = json_path_of (Sample.uuid4_hex n)) /\
  unused_ids Sample.uuid4_hex run.2 /\
  dom (files Sample.empty_dir) ⊆ dom (files run.2) /\
  (size (files Sample.empty_dir) + length (exported run.1)
   <= size (files run.2))%nat.
Proof.
  cbv zeta.
  apply (UiSpec.session_exports_distinct (PIL := Sample.pillow)
           (Py := Sample.python) (Json := Sample.jsonlib)
           Sample.uuid4_hex Sample.steady_server Sample.open_ok
           [Some Sample.blank; None; Some Sample.blank] Sample.empty_dir).
  - exact UiSpec.sample_ids_distinct.
  - exact UiSpec.sample_dir_unused.
  - by destruct (Ui.session _ _ _ _ _).
Defined.


End UiMore.
